(** * MultiMAuS: the uni-modal customer model (simulator/customer_unimaus.py)

    A shallow embedding of [UniMausCustomer], [UniMausGenuineCustomer] and
    [UniMausFraudulentCustomer].

    Numbers.  Python floats are rendered as exact rationals ([Q]); every
    statement about them is up to [==] ([Qeq]) unless it holds syntactically.
    Rounding, infinities and NaN are outside this model.

    Randomness.  A method that draws from [self.random_state] is a finite
    tree of type [rand A]: a leaf is a returned value or a raised exception,
    a node is one request to the generator together with the continuation
    for its answer.  A tree is executed against any generator by [run];
    [requests] lists the requests issued on the way.

    Collaborators that live outside this file (the transaction model, the
    merchants, pytz) are the fields of the class [World]. *)

From Stdlib Require Import ZArith QArith Qround String List Bool Lia Lqa.
Import ListNotations.

Local Open Scope Z_scope.
Local Open Scope Q_scope.

(** ** Floats as rationals *)

(** [x < y] on floats, as a boolean. *)
Definition Qltb (x y : Q) : bool := negb (Qle_bool y x).

(** ** Exceptions and results *)

Inductive exn : Type :=
| ValueError
| IndexError
| KeyError
| AttributeError
| UnknownTimeZoneError.

Definition exn_eqb (a b : exn) : bool :=
  match a, b with
  | ValueError, ValueError
  | IndexError, IndexError
  | KeyError, KeyError
  | AttributeError, AttributeError
  | UnknownTimeZoneError, UnknownTimeZoneError => true
  | _, _ => false
  end.

Inductive result (A : Type) : Type :=
| Returns (a : A)
| Raises (e : exn).

Arguments Returns {A} a.
Arguments Raises {A} e.

(** ** numpy.random.RandomState as a request/answer interface *)

(** The four sampling methods the customers call.  [Choice size p] asks for
    an index into a population of [size] elements, with the optional
    probability vector [p]. *)
Inductive draw : Type :=
| Uniform (low high : Q)
| Normal (loc scale : Q)
| MultivariateNormal (mean : list Q) (cov : list (list Q))
| Choice (size : nat) (p : option (list Q)).

Definition response (d : draw) : Type :=
  match d with
  | Uniform _ _ => Q
  | Normal _ _ => Q
  | MultivariateNormal _ _ => list Q
  | Choice _ _ => nat
  end.

Inductive rand (A : Type) : Type :=
| Ret (a : A)
| Raise (e : exn)
| Sample (d : draw) (k : response d -> rand A).

Arguments Ret {A} a.
Arguments Raise {A} e.
Arguments Sample {A} d k.

Fixpoint bind {A B : Type} (m : rand A) (f : A -> rand B) : rand B :=
  match m with
  | Ret a => f a
  | Raise e => Raise e
  | Sample d k => Sample d (fun x => bind (k x) f)
  end.

Notation "x <- m ;; k" := (bind m (fun x => k))
  (at level 61, m at next level, right associativity).
Notation "' pat <- m ;; k" := (bind m (fun x => match x with pat => k end))
  (at level 61, pat pattern, m at next level, right associativity).

(** [try: m except e: h]. *)
Fixpoint try_except {A : Type} (m : rand A) (e : exn) (h : rand A) : rand A :=
  match m with
  | Ret a => Ret a
  | Raise e' => if exn_eqb e e' then h else Raise e'
  | Sample d k => Sample d (fun x => try_except (k x) e h)
  end.

(** A pure computation that may raise, used inside a drawing one. *)
Definition lift {A : Type} (r : result A) : rand A :=
  match r with
  | Returns a => Ret a
  | Raises e => Raise e
  end.

(** *** The argument checks numpy makes before it samples *)

Definition Qsum (l : list Q) : Q := fold_right Qplus 0 l.

(** [p] is accepted by [choice]: same size as the population, no negative
    entry, summing to one (numpy allows the sum a rounding tolerance, which
    exact rationals do not need). *)
Definition probabilities (size : nat) (p : list Q) : bool :=
  Nat.eqb (length p) size
  && forallb (fun x => Qle_bool 0 x) p
  && Qeq_bool (Qsum p) 1.

Definition all_zero (cov : list (list Q)) : bool :=
  forallb (forallb (fun x => Qeq_bool x 0)) cov.

(** [random_state.uniform(low, high, 1)[0]] *)
Definition uniform (low high : Q) : rand Q :=
  Sample (Uniform low high) Ret.

(** [random_state.normal(loc, scale, 1)[0]]; numpy rejects a negative scale. *)
Definition normal (loc scale : Q) : rand Q :=
  if Qltb scale 0 then Raise ValueError
  else Sample (Normal loc scale) Ret.

(** [random_state.multivariate_normal(mean, cov, 1)[0]]; numpy rejects a
    covariance that is not square or whose size differs from the mean's. *)
Definition multivariate_normal (mean : list Q) (cov : list (list Q)) : rand (list Q) :=
  if forallb (fun row => Nat.eqb (length row) (length cov)) cov
     && Nat.eqb (length mean) (length cov)
  then Sample (MultivariateNormal mean cov) Ret
  else Raise ValueError.

(** [random_state.choice(a)] and [random_state.choice(a, p=p)]; numpy rejects
    an empty population and a [p] that is not a probability vector. *)
Definition choice {A : Type} (a : list A) (p : option (list Q)) : rand A :=
  match a with
  | [] => Raise ValueError
  | a0 :: _ =>
      if match p with
         | Some pv => probabilities (length a) pv
         | None => true
         end
      then Sample (Choice (length a) p) (fun i => Ret (nth i a a0))
      else Raise ValueError
  end.

(** What the library promises about an answer [x] to a request [d]:
    - [uniform] samples from the half-open interval [[low, high)];
    - [normal] with scale zero returns its location;
    - [multivariate_normal] returns a vector of the mean's size, and the
      mean itself when the covariance is the zero matrix;
    - [choice] returns a position of the population, one of positive
      probability when [p] is given. *)
Definition lawful (d : draw) : response d -> Prop :=
  match d with
  | Uniform low high => fun x => low < high -> low <= x /\ x < high
  | Normal loc scale => fun x => scale == 0 -> x == loc
  | MultivariateNormal mean cov => fun x =>
      length x = length mean /\ (all_zero cov = true -> Forall2 Qeq x mean)
  | Choice size p => fun i =>
      (0 < size)%nat ->
      (i < size)%nat /\
      match p with
      | Some pv => probabilities size pv = true -> 0 < nth i pv 0
      | None => True
      end
  end.

(** A generator: a state and a sampler. *)
Class RandomState : Type := {
  generator : Type;
  sample : forall d : draw, generator -> response d * generator
}.

Definition lawful_generator (R : RandomState) : Prop :=
  forall (d : draw) (g : generator), lawful d (fst (sample d g)).

(** Execution of a tree against a generator. *)
Fixpoint run {R : RandomState} {A : Type} (m : rand A) (g : generator)
  : result A * generator :=
  match m with
  | Ret a => (Returns a, g)
  | Raise e => (Raises e, g)
  | Sample d k => run (k (fst (sample d g))) (snd (sample d g))
  end.

(** The requests made during that execution, first to last. *)
Fixpoint requests {R : RandomState} {A : Type} (m : rand A) (g : generator)
  : list draw :=
  match m with
  | Ret _ => []
  | Raise _ => []
  | Sample d k => d :: requests (k (fst (sample d g))) (snd (sample d g))
  end.

(** ** numpy arrays *)

(** [a[i]] for an integer [i]: negative positions count from the end. *)
Definition getitem {A : Type} (a : list A) (i : Z) : result A :=
  let n := Z.of_nat (length a) in
  let j := (if i <? 0 then i + n else i)%Z in
  if ((0 <=? j) && (j <? n))%Z
  then match nth_error a (Z.to_nat j) with
       | Some x => Returns x
       | None => Raises IndexError
       end
  else Raises IndexError.

(** [np.eye(n)] *)
Definition eye (n : nat) : list (list Q) :=
  map (fun i => map (fun j => if Nat.eqb i j then 1 else 0) (seq 0 n)) (seq 0 n).

(** [m * x] and [m / x] for a matrix [m] and a scalar [x]. *)
Definition mat_mul (m : list (list Q)) (x : Q) : list (list Q) :=
  map (map (fun e => e * x)) m.

Definition mat_div (m : list (list Q)) (x : Q) : list (list Q) :=
  map (map (fun e => e / x)) m.

(** [a[a < 0] = 0] *)
Definition clamp_negative (a : list Q) : list Q :=
  map (fun x => if Qltb x 0 then 0 else x) a.

(** ** datetime *)

Record datetime : Type := {
  year : Z;
  month : Z;
  day : Z;
  hour : Z;
  minute : Z;
  second : Z
}.

Definition is_leap (y : Z) : bool :=
  ((y mod 4 =? 0) && (negb (y mod 100 =? 0) || (y mod 400 =? 0)))%Z.

Definition days_before_year (y : Z) : Z :=
  (let y' := y - 1 in y' * 365 + y' / 4 - y' / 100 + y' / 400)%Z.

Definition DAYS_BEFORE_MONTH : list Z :=
  [-1; 0; 31; 59; 90; 120; 151; 181; 212; 243; 273; 304; 334]%Z.

Definition days_before_month (y m : Z) : Z :=
  (nth (Z.to_nat m) DAYS_BEFORE_MONTH 0
   + (if (2 <? m) && is_leap y then 1 else 0))%Z.

Definition toordinal (d : datetime) : Z :=
  (days_before_year (year d) + days_before_month (year d) (month d) + day d)%Z.

(** [d.weekday()]: Monday is 0, Sunday is 6. *)
Definition weekday (d : datetime) : Z := ((toordinal d + 6) mod 7)%Z.

(** A pure step that may raise, inside a pure computation. *)
Notation "'let?' x ':=' r 'in' k" :=
  (match r with
   | Returns x => k
   | Raises e => Raises e
   end)
  (at level 10, x name, r at level 100, k at level 200).

(** ** The parameter tables ([self.params]) *)

(** A table with one entry per class is a function of the fraud flag
    ([False] is position 0, [True] position 1).  A data frame is the list of
    its rows in index order, each row keyed by its index label. *)
Module Params.

Record t : Type := {
  noise_level : Q;
  trans_per_year : bool -> Q;
  transaction_motivation : bool -> Q;
  frac_month : bool -> list Q;
  frac_monthday : bool -> list Q;
  frac_weekday : bool -> list Q;
  frac_hour : bool -> list Q;
  (** per class: currency, then the (merchant id, probability) entries *)
  merchant_per_currency : bool -> list (string * list (Z * Q));
  (** country, then the genuine and the fraud column *)
  country_frac : list (string * (Q * Q));
  (** per class: (country, currency), then the probability *)
  currency_per_country : bool -> list ((string * string) * Q);
  stay_prob : bool -> Q;
  stay_after_fraud : Q;
  fraud_cards_in_genuine : Q
}.

End Params.

(** [frame.loc[key]] on a frame with unique index labels. *)
Fixpoint loc {V : Type} (frame : list (string * V)) (key : string) : result V :=
  match frame with
  | [] => Raises KeyError
  | (k, v) :: rest => if String.eqb k key then Returns v else loc rest key
  end.


(** ** Customers *)

(** The attributes of a customer object; [M] is the type of merchants.
    [card_corrupted] is meaningful for genuine customers only. *)
Record customer (M : Type) : Type := {
  unique_id : Z;
  params : Params.t;
  fraudster : bool;
  country : string;
  currency : string;
  card_id : Z;
  stay : bool;
  num_transactions : Z;
  curr_merchant : option M;
  curr_amount : option Q;
  noise_level : Q;
  avg_trans_per_hour : Q;
  trans_prob_month : list Q;
  trans_prob_monthday : list Q;
  trans_prob_weekday : list Q;
  trans_prob_hour : list Q;
  card_corrupted : bool
}.

Arguments Build_customer {M}.
Arguments unique_id {M} c.
Arguments params {M} c.
Arguments fraudster {M} c.
Arguments country {M} c.
Arguments currency {M} c.
Arguments card_id {M} c.
Arguments stay {M} c.
Arguments num_transactions {M} c.
Arguments curr_merchant {M} c.
Arguments curr_amount {M} c.
Arguments noise_level {M} c.
Arguments avg_trans_per_hour {M} c.
Arguments trans_prob_month {M} c.
Arguments trans_prob_monthday {M} c.
Arguments trans_prob_weekday {M} c.
Arguments trans_prob_hour {M} c.
Arguments card_corrupted {M} c.

(** Attribute assignment, [self.x = v]. *)
Section Assign.
Context {M : Type}.

Definition set_country (v : string) (c : customer M) : customer M :=
  Build_customer (unique_id c) (params c) (fraudster c) v (currency c)
    (card_id c) (stay c) (num_transactions c) (curr_merchant c) (curr_amount c)
    (noise_level c) (avg_trans_per_hour c) (trans_prob_month c)
    (trans_prob_monthday c) (trans_prob_weekday c) (trans_prob_hour c)
    (card_corrupted c).

Definition set_currency (v : string) (c : customer M) : customer M :=
  Build_customer (unique_id c) (params c) (fraudster c) (country c) v
    (card_id c) (stay c) (num_transactions c) (curr_merchant c) (curr_amount c)
    (noise_level c) (avg_trans_per_hour c) (trans_prob_month c)
    (trans_prob_monthday c) (trans_prob_weekday c) (trans_prob_hour c)
    (card_corrupted c).

Definition set_stay (v : bool) (c : customer M) : customer M :=
  Build_customer (unique_id c) (params c) (fraudster c) (country c) (currency c)
    (card_id c) v (num_transactions c) (curr_merchant c) (curr_amount c)
    (noise_level c) (avg_trans_per_hour c) (trans_prob_month c)
    (trans_prob_monthday c) (trans_prob_weekday c) (trans_prob_hour c)
    (card_corrupted c).

Definition set_curr_merchant (v : option M) (c : customer M) : customer M :=
  Build_customer (unique_id c) (params c) (fraudster c) (country c) (currency c)
    (card_id c) (stay c) (num_transactions c) v (curr_amount c)
    (noise_level c) (avg_trans_per_hour c) (trans_prob_month c)
    (trans_prob_monthday c) (trans_prob_weekday c) (trans_prob_hour c)
    (card_corrupted c).

Definition set_curr_amount (v : option Q) (c : customer M) : customer M :=
  Build_customer (unique_id c) (params c) (fraudster c) (country c) (currency c)
    (card_id c) (stay c) (num_transactions c) (curr_merchant c) v
    (noise_level c) (avg_trans_per_hour c) (trans_prob_month c)
    (trans_prob_monthday c) (trans_prob_weekday c) (trans_prob_hour c)
    (card_corrupted c).

Definition set_noise_level (v : Q) (c : customer M) : customer M :=
  Build_customer (unique_id c) (params c) (fraudster c) (country c) (currency c)
    (card_id c) (stay c) (num_transactions c) (curr_merchant c) (curr_amount c)
    v (avg_trans_per_hour c) (trans_prob_month c)
    (trans_prob_monthday c) (trans_prob_weekday c) (trans_prob_hour c)
    (card_corrupted c).

Definition set_avg_trans_per_hour (v : Q) (c : customer M) : customer M :=
  Build_customer (unique_id c) (params c) (fraudster c) (country c) (currency c)
    (card_id c) (stay c) (num_transactions c) (curr_merchant c) (curr_amount c)
    (noise_level c) v (trans_prob_month c)
    (trans_prob_monthday c) (trans_prob_weekday c) (trans_prob_hour c)
    (card_corrupted c).

(** The tuple assignment of the four curves in [__init__]. *)
Definition set_trans_prob (v : list Q * list Q * list Q * list Q)
  (c : customer M) : customer M :=
  let '(mo, md, wd, ho) := v in
  Build_customer (unique_id c) (params c) (fraudster c) (country c) (currency c)
    (card_id c) (stay c) (num_transactions c) (curr_merchant c) (curr_amount c)
    (noise_level c) (avg_trans_per_hour c) mo md wd ho
    (card_corrupted c).

Definition set_card_corrupted (v : bool) (c : customer M) : customer M :=
  Build_customer (unique_id c) (params c) (fraudster c) (country c) (currency c)
    (card_id c) (stay c) (num_transactions c) (curr_merchant c) (curr_amount c)
    (noise_level c) (avg_trans_per_hour c) (trans_prob_month c)
    (trans_prob_monthday c) (trans_prob_weekday c) (trans_prob_hour c)
    v.

End Assign.

(** ** The collaborators

    - a merchant exposes [unique_id] and [get_amount(customer)]; the latter
      may draw, raise, and change the customer it is handed;
    - the transaction model exposes the clock, the two registries and the
      card-id counter;
    - [localize d c] is pytz's conversion of the US/Pacific wall time [d] to
      the first time zone of country [c], as a naive datetime. *)
Class World : Type := {
  merchant : Type;
  merchant_unique_id : merchant -> Z;
  get_amount : merchant -> customer merchant -> rand (Q * customer merchant);
  model : Type;
  curr_global_date : model -> datetime;
  merchants : model -> list merchant;
  customers : model -> list (customer merchant);
  get_next_card_id : model -> Z * model;
  localize : datetime -> string -> result datetime
}.

(** The type of [self]. *)
Abbreviation self_t := (customer merchant).

(** ** class UniMausCustomer *)
Module UniMausCustomer.
Section Methods.
Context {W : World}.


Definition initialise_transaction_probabilities (self : self_t)
  : rand (list Q * list Q * list Q * list Q) :=
  let tables := params self in
  (* transaction probability per month *)
  let trans_prob_month := Params.frac_month tables (fraudster self) in
  trans_prob_month <-
    multivariate_normal trans_prob_month
      (mat_div (mat_mul (eye 12) (noise_level self)) 1200) ;;
  let trans_prob_month := clamp_negative trans_prob_month in
  (* transaction probability per day in month *)
  let trans_prob_monthday := Params.frac_monthday tables (fraudster self) in
  trans_prob_monthday <-
    multivariate_normal trans_prob_monthday
      (mat_div (mat_mul (eye 31) (noise_level self)) 305) ;;
  let trans_prob_monthday := clamp_negative trans_prob_monthday in
  (* transaction probability per weekday *)
  let trans_prob_weekday := Params.frac_weekday tables (fraudster self) in
  trans_prob_weekday <-
    multivariate_normal trans_prob_weekday
      (mat_div (mat_mul (eye 7) (noise_level self)) 70) ;;
  let trans_prob_weekday := clamp_negative trans_prob_weekday in
  (* transaction probability per hour *)
  let trans_prob_hour := Params.frac_hour tables (fraudster self) in
  trans_prob_hour <-
    multivariate_normal trans_prob_hour
      (mat_div (mat_mul (eye 24) (noise_level self)) 240) ;;
  let trans_prob_hour := clamp_negative trans_prob_hour in
  Ret (trans_prob_month, trans_prob_monthday, trans_prob_weekday, trans_prob_hour).

(** The constructor from the line after [super().__init__] on: [self] is
    the object as the base class left it, with [params], [fraudster] and the
    attributes of the base class set. *)
Definition __init__ (self : self_t) : rand self_t :=
  let self := set_noise_level (Params.noise_level (params self)) self in
  (* average number of transaction per hour in general *)
  let trans_per_year := Params.trans_per_year (params self) (fraudster self) in
  rand_addition <- normal 0 (noise_level self * trans_per_year) ;;
  let trans_per_year :=
    if Qltb 0 (trans_per_year + rand_addition)
    then trans_per_year + rand_addition
    else trans_per_year in
  let self := set_avg_trans_per_hour (trans_per_year / 366 / 24) self in
  let self :=
    set_avg_trans_per_hour
      (avg_trans_per_hour self
       * Params.transaction_motivation (params self) (fraudster self)) self in
  curves <- initialise_transaction_probabilities self ;;
  Ret (set_trans_prob curves self).

Definition get_local_datetime (self : self_t) (mdl : model) : result datetime :=
  localize (curr_global_date mdl) (country self).

Definition get_curr_transaction_prob (self : self_t) (mdl : model) : result Q :=
  (* get the current local time *)
  let? local_datetime := get_local_datetime self mdl in
  (* get the average transactions per hour *)
  let trans_prob := avg_trans_per_hour self in
  (* now weigh by probabilities of transactions per month/week/... *)
  let? m := getitem (trans_prob_month self) (month local_datetime - 1) in
  let trans_prob := trans_prob * (12 * m) in
  let? h := getitem (trans_prob_hour self) (hour local_datetime) in
  let trans_prob := trans_prob * (24 * h) in
  let? d := getitem (trans_prob_monthday self) (day local_datetime - 1) in
  let trans_prob := trans_prob * (30.5 * d) in
  let? w := getitem (trans_prob_weekday self) (weekday local_datetime) in
  let trans_prob := trans_prob * (7 * w) in
  Returns trans_prob.

Definition decide_making_transaction (self : self_t) (mdl : model) : rand bool :=
  trans_prob <- lift (get_curr_transaction_prob self mdl) ;;
  u <- uniform 0 1 ;;
  let make_transaction := Qltb u trans_prob in
  Ret make_transaction.

Definition pick_curr_merchant (self : self_t) (mdl : model) : rand merchant :=
  let merchant_prob := Params.merchant_per_currency (params self) (fraudster self) in
  merchant_prob <- lift (loc merchant_prob (currency self)) ;;
  merchant_ID <- choice (map fst merchant_prob) (Some (map snd merchant_prob)) ;;
  match filter (fun m => (merchant_unique_id m =? merchant_ID)%Z) (merchants mdl) with
  | m :: _ => Ret m
  | [] => Raise IndexError
  end.

Definition pick_curr_amount (self : self_t) : rand (Q * self_t) :=
  match curr_merchant self with
  | Some m => get_amount m self
  | None => Raise AttributeError
  end.

Definition perform_transaction (self : self_t) (mdl : model) : rand self_t :=
  (* pick merchant and transaction amount *)
  m <- pick_curr_merchant self mdl ;;
  let self := set_curr_merchant (Some m) self in
  '(amount, self) <- pick_curr_amount self ;;
  Ret (set_curr_amount (Some amount) self).

Definition decide_staying (self : self_t) : rand self_t :=
  u <- uniform 0 1 ;;
  let leave := Qltb u (1 - Params.stay_prob (params self) (fraudster self)) in
  Ret (if leave then set_stay false self else self).


Definition initialise_currency (self : self_t) : rand string :=
  let currency_prob := Params.currency_per_country (params self) (fraudster self) in
  match filter (fun row => String.eqb (fst (fst row)) (country self)) currency_prob with
  | [] => Raise KeyError
  | currency_prob =>
      choice (map (fun row => snd (fst row)) currency_prob)
        (Some (map snd currency_prob))
  end.

Definition initialise_card_id (self : self_t) (mdl : model)
  : rand (Z * self_t * model) :=
  let (card, mdl) := get_next_card_id mdl in
  Ret (card, self, mdl).

End Methods.
End UniMausCustomer.

(** ** class UniMausGenuineCustomer(UniMausCustomer) *)
Module UniMausGenuineCustomer.
Section Methods.
Context {W : World}.


Definition __init__ (self : self_t) : rand self_t :=
  self <- UniMausCustomer.__init__ self ;;
  (* add field for whether the credit card was corrupted by a fraudster *)
  Ret (set_card_corrupted false self).


(** Returns the decision and the customer as the call leaves it. *)
Definition decide_making_transaction (self : self_t) (mdl : model)
  : rand (bool * self_t) :=
  do_trans <- UniMausCustomer.decide_making_transaction self mdl ;;
  u <- uniform 0 1 ;;
  let leave_after_fraud := Qltb u (1 - Params.stay_after_fraud (params self)) in
  if do_trans && card_corrupted self && leave_after_fraud
  then Ret (false, set_stay false self)
  else Ret (do_trans, self).

End Methods.
End UniMausGenuineCustomer.

(** ** class UniMausFraudulentCustomer(UniMausCustomer) *)
Module UniMausFraudulentCustomer.
Section Methods.
Context {W : World}.


(** [x in xs] for labels and for ids. *)
Definition label_in (x : string) (xs : list string) : bool :=
  existsb (String.eqb x) xs.

Definition id_in (x : Z) (xs : list Z) : bool :=
  existsb (Z.eqb x) xs.

(** (1) the countries whose fraud column is not zero *)
Definition fraudster_countries (tables : Params.t) : list string :=
  map fst
    (filter (fun row => negb (Qeq_bool (snd (snd row)) 0))
       (Params.country_frac tables)).

(** (2) the currencies of the fraud currency table *)
Definition fraudster_currencies (tables : Params.t) : list string :=
  nodup string_dec
    (map (fun row => snd (fst row)) (Params.currency_per_country tables true)).

(** (3) the ids of the customers that have already made a transaction *)
Definition customers_active_ids (mdl : model) : list Z :=
  map unique_id (filter (fun c => (0 <? num_transactions c)%Z) (customers mdl)).

(** The list the fraud target is chosen from. *)
Definition targets (self : self_t) (mdl : model) : list self_t :=
  filter
    (fun c =>
       label_in (country c) (fraudster_countries (params self))
       && label_in (currency c) (fraudster_currencies (params self))
       && id_in (unique_id c) (customers_active_ids mdl))
    (customers mdl).

(** Returns the card, the fraudster as the call leaves it, and the model. *)
Definition initialise_card_id (self : self_t) (mdl : model)
  : rand (Z * self_t * model) :=
  u <- uniform 0 1 ;;
  if Qltb u (Params.fraud_cards_in_genuine (params self))
  then
    (* now pick the fraud target (if there are no targets get own credit card) *)
    try_except
      (customer <- choice (targets self mdl) None ;;
       (* get the information from the target *)
       let card := card_id customer in
       let self := set_country (country customer) self in
       let self := set_currency (currency customer) self in
       Ret (card, self, mdl))
      ValueError
      (UniMausCustomer.initialise_card_id self mdl)
  else UniMausCustomer.initialise_card_id self mdl.

End Methods.
End UniMausFraudulentCustomer.

(** ** A replaying generator

    Its state is a tape of numbers; each request reads from the front of the
    tape.  It is used to execute the methods on concrete draws. *)
Module Replay.

Definition answer (d : draw) (tape : list Q) : response d :=
  match d with
  | Uniform low high =>
      let q := hd 0 tape in
      if Qle_bool low q && Qltb q high then q else low
  | Normal loc scale => loc + scale * hd 0 tape
  | MultivariateNormal mean cov =>
      let c := nth 0 (nth 0 cov []) 0 in
      map (fun mq => fst mq + c * snd mq)
        (combine mean (tape ++ repeat 0 (length mean)))
  | Choice size p =>
      let k := Z.to_nat (Qfloor (hd 0 tape)) in
      match p with
      | None => (k mod size)%nat
      | Some pv =>
          let positive := filter (fun i => Qltb 0 (nth i pv 0)) (seq 0 size) in
          nth (k mod length positive)%nat positive 0%nat
      end
  end.

Definition consumed (d : draw) : nat :=
  match d with
  | MultivariateNormal mean _ => length mean
  | _ => 1%nat
  end.

Definition random_state : RandomState := {|
  generator := list Q;
  sample d tape := (answer d tape, skipn (consumed d) tape)
|}.

End Replay.

(** ** A small world to execute the methods in *)
Module Fixture.

(** A merchant is its id and a fixed price. *)
Record shop_model : Type := {
  clock : datetime;
  shops : list (Z * Q);
  population : list (customer (Z * Q));
  next_card : Z
}.

Definition world : World := {|
  merchant := (Z * Q)%type;
  merchant_unique_id := fst;
  get_amount m c := Ret (snd m, c);
  model := shop_model;
  curr_global_date := clock;
  merchants := shops;
  customers := population;
  get_next_card_id m :=
    (next_card m,
     {| clock := clock m; shops := shops m; population := population m;
        next_card := next_card m + 1 |});
  localize d c := if String.eqb c "" then Raises KeyError else Returns d
|}.

Definition tables : Params.t := {|
  Params.noise_level := 1;
  Params.trans_per_year := fun f => if f then 2 else 1;
  Params.transaction_motivation := fun _ => 1 # 2;
  Params.frac_month := fun _ => repeat (1 # 12) 12;
  Params.frac_monthday := fun _ => repeat (1 # 31) 31;
  Params.frac_weekday := fun _ => repeat (1 # 7) 7;
  Params.frac_hour := fun _ => repeat (1 # 24) 24;
  Params.merchant_per_currency := fun _ =>
    [("EUR"%string, [(7%Z, 0); (8%Z, 1); (9%Z, 0)]);
     ("USD"%string, [(7%Z, 1 # 2); (8%Z, 0); (9%Z, 1 # 2)])];
  Params.country_frac := [("DE"%string, (1 # 2, 1)); ("US"%string, (1 # 2, 0))];
  Params.currency_per_country := fun _ =>
    [(("DE"%string, "EUR"%string), 1); (("US"%string, "USD"%string), 1)];
  Params.stay_prob := fun _ => 9 # 10;
  Params.stay_after_fraud := 0;
  Params.fraud_cards_in_genuine := 1 # 2
|}.

(** The same tables without noise. *)
Definition quiet_tables : Params.t := {|
  Params.noise_level := 0;
  Params.trans_per_year := Params.trans_per_year tables;
  Params.transaction_motivation := Params.transaction_motivation tables;
  Params.frac_month := Params.frac_month tables;
  Params.frac_monthday := Params.frac_monthday tables;
  Params.frac_weekday := Params.frac_weekday tables;
  Params.frac_hour := Params.frac_hour tables;
  Params.merchant_per_currency := Params.merchant_per_currency tables;
  Params.country_frac := Params.country_frac tables;
  Params.currency_per_country := Params.currency_per_country tables;
  Params.stay_prob := Params.stay_prob tables;
  Params.stay_after_fraud := Params.stay_after_fraud tables;
  Params.fraud_cards_in_genuine := Params.fraud_cards_in_genuine tables
|}.

(** A customer as the base class leaves it, before [__init__]. *)
Definition fresh (id : Z) (t : Params.t) (f : bool) (n : Z) : customer (Z * Q) := {|
  unique_id := id; params := t; fraudster := f;
  country := "DE"; currency := "EUR"; card_id := 100 + id;
  stay := true; num_transactions := n;
  curr_merchant := None; curr_amount := None;
  noise_level := 0; avg_trans_per_hour := 0;
  trans_prob_month := []; trans_prob_monthday := [];
  trans_prob_weekday := []; trans_prob_hour := [];
  card_corrupted := false
|}.

(** Monday 1 January 2018, midnight. *)
Definition new_year : datetime :=
  {| year := 2018; month := 1; day := 1; hour := 0; minute := 0; second := 0 |}.

Definition town (people : list (customer (Z * Q))) : shop_model :=
  {| clock := new_year;
     shops := [(7%Z, 5); (8%Z, 10); (9%Z, 20)];
     population := people;
     next_card := 500 |}.

(** A customer after construction, with the class's mean curves. *)
Definition settled (c : customer (Z * Q)) : customer (Z * Q) :=
  set_trans_prob
    (Params.frac_month (params c) (fraudster c),
     Params.frac_monthday (params c) (fraudster c),
     Params.frac_weekday (params c) (fraudster c),
     Params.frac_hour (params c) (fraudster c))
    (set_avg_trans_per_hour (1 # 2)
       (set_noise_level (Params.noise_level (params c)) c)).

(** A genuine customer with three transactions, and the same customer after
    its card was used by a fraudster. *)
Definition alice : customer (Z * Q) := settled (fresh 1 tables false 3).

Definition alice_defrauded : customer (Z * Q) := set_card_corrupted true alice.

(** A genuine customer without a transaction yet. *)
Definition bob : customer (Z * Q) := settled (fresh 2 tables false 0).

(** A fraudster with one transaction, and a fraudster under construction. *)
Definition mallory : customer (Z * Q) := settled (fresh 3 tables true 1).

Definition eve : customer (Z * Q) := fresh 4 tables true 0.

(** A customer under construction from the tables without noise. *)
Definition quiet : customer (Z * Q) := fresh 5 quiet_tables false 0.

End Fixture.

(** * Properties *)

(** ** Comparisons, arrays, dates *)

Lemma Qltb_lt (x y : Q) : Qltb x y = true <-> x < y.
Proof.
  unfold Qltb. rewrite negb_true_iff. split; intro H.
  - apply Qnot_le_lt. intro L. apply Qle_bool_iff in L. congruence.
  - destruct (Qle_bool y x) eqn:E; [| reflexivity].
    apply Qle_bool_iff in E. exfalso. apply (Qlt_not_le _ _ H E).
Qed.

Lemma Qltb_ge (x y : Q) : Qltb x y = false <-> y <= x.
Proof.
  unfold Qltb. rewrite negb_false_iff. apply Qle_bool_iff.
Qed.

Lemma getitem_nth {A : Type} (a : list A) (i : Z) (dflt : A) :
  (0 <= i < Z.of_nat (length a))%Z ->
  getitem a i = Returns (nth (Z.to_nat i) a dflt).
Proof.
  intros [Hlo Hhi]. unfold getitem.
  replace (i <? 0)%Z with false by (symmetry; apply Z.ltb_ge; exact Hlo).
  replace (0 <=? i)%Z with true by (symmetry; apply Z.leb_le; exact Hlo).
  replace (i <? Z.of_nat (length a))%Z with true
    by (symmetry; apply Z.ltb_lt; exact Hhi).
  cbn [andb].
  destruct (nth_error a (Z.to_nat i)) as [x |] eqn:E.
  - f_equal. symmetry. apply nth_error_nth. exact E.
  - apply nth_error_None in E. lia.
Qed.

Lemma weekday_range (d : datetime) : (0 <= weekday d < 7)%Z.
Proof.
  unfold weekday. apply Z.mod_pos_bound. lia.
Qed.

Lemma clamp_negative_length (a : list Q) :
  length (clamp_negative a) = length a.
Proof.
  unfold clamp_negative. apply length_map.
Qed.

Lemma clamp_negative_nonneg (a : list Q) :
  Forall (fun x => 0 <= x) (clamp_negative a).
Proof.
  unfold clamp_negative. induction a as [| x a IH]; cbn [map].
  - constructor.
  - constructor; [| exact IH].
    destruct (Qltb x 0) eqn:E.
    + apply Qle_refl.
    + apply Qltb_ge. exact E.
Qed.

Lemma clamp_negative_id (a b : list Q) :
  Forall2 Qeq a b -> Forall (fun x => 0 <= x) b ->
  Forall2 Qeq (clamp_negative a) b.
Proof.
  unfold clamp_negative. induction 1 as [| x y a b Hxy Hab IH]; intro Hb; cbn [map].
  - constructor.
  - inversion Hb as [| ? ? Hy Hb']; subst. constructor; [| exact (IH Hb')].
    destruct (Qltb x 0) eqn:E; [| exact Hxy].
    apply Qltb_lt in E. rewrite Hxy in E. apply Qle_antisym; [exact Hy|].
    apply Qlt_le_weak. exact E.
Qed.

(** ** Execution of sequenced and guarded trees *)

Section Execution.
Context {R : RandomState}.

Lemma run_bind {A B : Type} (m : rand A) (f : A -> rand B) (g : generator) :
  run (bind m f) g =
  match run m g with
  | (Returns a, g') => run (f a) g'
  | (Raises e, g') => (Raises e, g')
  end.
Proof.
  revert g. induction m as [a | e | d k IH]; intro g; cbn [bind run].
  - reflexivity.
  - reflexivity.
  - apply IH.
Qed.

Lemma requests_bind {A B : Type} (m : rand A) (f : A -> rand B) (g : generator) :
  requests (bind m f) g =
  requests m g ++
  match run m g with
  | (Returns a, g') => requests (f a) g'
  | (Raises _, _) => []
  end.
Proof.
  revert g. induction m as [a | e | d k IH]; intro g; cbn [bind run requests app].
  - reflexivity.
  - reflexivity.
  - f_equal. apply IH.
Qed.

Lemma run_try_except {A : Type} (m : rand A) (e : exn) (h : rand A) (g : generator) :
  run (try_except m e h) g =
  match run m g with
  | (Returns a, g') => (Returns a, g')
  | (Raises e', g') => if exn_eqb e e' then run h g' else (Raises e', g')
  end.
Proof.
  revert g. induction m as [a | e' | d k IH]; intro g; cbn [try_except run].
  - reflexivity.
  - destruct (exn_eqb e e'); reflexivity.
  - apply IH.
Qed.

Lemma run_lift {A : Type} (r : result A) (g : generator) :
  run (lift r) g = (r, g).
Proof.
  destruct r; reflexivity.
Qed.

Lemma requests_lift {A : Type} (r : result A) (g : generator) :
  requests (lift r) g = [].
Proof.
  destruct r; reflexivity.
Qed.

End Execution.

(** ** The replaying generator keeps the library's promises *)

Lemma Qsum_positive_entry (l : list Q) :
  Forall (fun x => 0 <= x) l -> 0 < Qsum l ->
  exists i, (i < length l)%nat /\ 0 < nth i l 0.
Proof.
  induction l as [| x l IH]; cbn [Qsum fold_right]; intros Hnn Hpos.
  - exfalso. apply (Qlt_irrefl 0). exact Hpos.
  - inversion Hnn as [| ? ? Hx Hl]; subst.
    destruct (Qlt_le_dec 0 x) as [Px | Nx].
    + exists 0%nat. cbn. split; [lia | exact Px].
    + fold (Qsum l) in Hpos.
      assert (Hrest : 0 < Qsum l) by lra.
      destruct (IH Hl Hrest) as [i [Hi Hp]].
      exists (S i). cbn. split; [lia | exact Hp].
Qed.

Lemma probabilities_positive_entry (size : nat) (pv : list Q) :
  probabilities size pv = true ->
  exists i, (i < size)%nat /\ 0 < nth i pv 0.
Proof.
  unfold probabilities. intro H.
  apply andb_true_iff in H as [H Hsum]. apply andb_true_iff in H as [Hlen Hnn].
  apply Nat.eqb_eq in Hlen. apply Qeq_bool_iff in Hsum.
  rewrite <- Hlen. apply Qsum_positive_entry.
  - apply Forall_forall. intros x Hx.
    rewrite forallb_forall in Hnn. apply Qle_bool_iff. apply Hnn. exact Hx.
  - rewrite Hsum. reflexivity.
Qed.

Lemma all_zero_corner (cov : list (list Q)) :
  all_zero cov = true -> nth 0 (nth 0 cov []) 0 == 0.
Proof.
  unfold all_zero. destruct cov as [| row cov]; cbn.
  - reflexivity.
  - destruct row as [| x row]; cbn.
    + reflexivity.
    + intro H. apply andb_true_iff in H as [H _].
      apply andb_true_iff in H as [H _]. apply Qeq_bool_iff. exact H.
Qed.

Lemma replay_mean (c : Q) (mean tape : list Q) :
  c == 0 -> (length mean <= length tape)%nat ->
  Forall2 Qeq (map (fun mq => fst mq + c * snd mq) (combine mean tape)) mean.
Proof.
  intro Hc. revert tape.
  induction mean as [| mu mean IH]; intros tape Hlen; cbn.
  - constructor.
  - destruct tape as [| q tape]; cbn in Hlen; [lia |]. cbn.
    constructor.
    + rewrite Hc. ring.
    + apply IH. lia.
Qed.

Lemma Replay_lawful : lawful_generator Replay.random_state.
Proof.
  intros d tape.
  destruct d as [low high | loc scale | mean cov | size p]; cbn.
  - intro Hlt.
    destruct (Qle_bool low (hd 0 tape) && Qltb (hd 0 tape) high) eqn:E.
    + apply andb_true_iff in E as [E1 E2].
      split; [apply Qle_bool_iff; exact E1 | apply Qltb_lt; exact E2].
    + split; [apply Qle_refl | exact Hlt].
  - intro Hs. rewrite Hs. ring.
  - split.
    + rewrite length_map, length_combine, length_app, repeat_length. lia.
    + intro Hz. apply replay_mean.
      * apply all_zero_corner. exact Hz.
      * rewrite length_app, repeat_length. lia.
  - intro Hsize. destruct p as [pv |].
    + set (positive := filter (fun i => Qltb 0 (nth i pv 0)) (seq 0 size)).
      set (k := Z.to_nat (Qfloor (hd 0 tape))).
      destruct positive as [| i0 rest] eqn:E.
      * split.
        { replace (nth (k mod length (@nil nat)) [] 0%nat) with 0%nat
            by (destruct (k mod length (@nil nat))%nat; reflexivity).
          exact Hsize. }
        intro Hp. exfalso.
        destruct (probabilities_positive_entry _ _ Hp) as [i [Hi Hpos]].
        assert (Hin : In i positive).
        { apply filter_In. split; [apply in_seq; lia | apply Qltb_lt; exact Hpos]. }
        rewrite E in Hin. exact Hin.
      * assert (Hin : In (nth (k mod length (i0 :: rest)) (i0 :: rest) 0%nat) positive).
        { rewrite E. apply nth_In. apply Nat.mod_upper_bound. cbn. lia. }
        apply filter_In in Hin as [Hseq Hpos]. apply in_seq in Hseq.
        split; [lia |]. intros _. apply Qltb_lt. exact Hpos.
    + split; [apply Nat.mod_upper_bound; lia | exact I].
Qed.

(** ** Postconditions that hold whatever the generator answers *)

(** [ensures m P]: on every path through [m] along which each answer keeps
    the library's promises, a returned value satisfies [P]. *)
Fixpoint ensures {A : Type} (m : rand A) (P : A -> Prop) : Prop :=
  match m with
  | Ret a => P a
  | Raise _ => True
  | Sample d k => forall x : response d, lawful d x -> ensures (k x) P
  end.

Lemma ensures_bind {A B : Type} (m : rand A) (f : A -> rand B) (P : B -> Prop) :
  ensures m (fun a => ensures (f a) P) -> ensures (bind m f) P.
Proof.
  induction m as [a | e | d k IH]; cbn [bind ensures]; intro H.
  - exact H.
  - exact I.
  - intros x Hx. apply IH. apply H. exact Hx.
Qed.

Lemma ensures_weaken {A : Type} (m : rand A) (P P' : A -> Prop) :
  (forall a, P a -> P' a) -> ensures m P -> ensures m P'.
Proof.
  intro HP. induction m as [a | e | d k IH]; cbn [ensures]; intro H.
  - apply HP. exact H.
  - exact I.
  - intros x Hx. apply IH. apply H. exact Hx.
Qed.

Lemma ensures_run {R : RandomState} {A : Type} (m : rand A) (P : A -> Prop)
  (g : generator) (a : A) :
  lawful_generator R -> ensures m P -> fst (run m g) = Returns a -> P a.
Proof.
  intro HR. revert g.
  induction m as [a' | e | d k IH]; cbn [ensures run]; intros g H E.
  - cbn in E. injection E as <-. exact H.
  - cbn in E. discriminate E.
  - apply (IH (fst (sample d g)) (snd (sample d g))); [| exact E].
    apply H. apply HR.
Qed.

(** ** Covariance matrices *)

Definition nonneg (a : list Q) : Prop := Forall (fun x => 0 <= x) a.

(** [cov] is the [n] by [n] matrix with [c] on the diagonal and zero elsewhere. *)
Definition isotropic (n : nat) (c : Q) (cov : list (list Q)) : Prop :=
  length cov = n /\
  forall i j, (i < n)%nat -> (j < n)%nat ->
    nth j (nth i cov []) 0 == (if Nat.eqb i j then c else 0).

Lemma mat_length (n : nat) (x d : Q) :
  length (mat_div (mat_mul (eye n) x) d) = n.
Proof.
  unfold mat_div, mat_mul, eye. rewrite !length_map. apply length_seq.
Qed.

Lemma nth_map_in {A B : Type} (f : A -> B) (l : list A) (i : nat) (da : A) (db : B) :
  (i < length l)%nat -> nth i (map f l) db = f (nth i l da).
Proof.
  intro Hi. rewrite (nth_indep _ db (f da)) by (rewrite length_map; exact Hi).
  apply map_nth.
Qed.

Lemma mat_entry (n : nat) (x d : Q) (i j : nat) :
  (i < n)%nat -> (j < n)%nat ->
  nth j (nth i (mat_div (mat_mul (eye n) x) d) []) 0
  = (if Nat.eqb i j then 1 else 0) * x / d.
Proof.
  intros Hi Hj. unfold mat_div, mat_mul, eye.
  rewrite (nth_map_in _ _ i []) by (rewrite !length_map, length_seq; exact Hi).
  rewrite (nth_map_in _ _ i []) by (rewrite length_map, length_seq; exact Hi).
  rewrite (nth_map_in _ _ i 0%nat) by (rewrite length_seq; exact Hi).
  rewrite (nth_map_in _ _ j 0) by (rewrite !length_map, length_seq; exact Hj).
  rewrite (nth_map_in _ _ j 0) by (rewrite length_map, length_seq; exact Hj).
  rewrite (nth_map_in _ _ j 0%nat) by (rewrite length_seq; exact Hj).
  rewrite !seq_nth by assumption. reflexivity.
Qed.

Lemma mat_isotropic (n : nat) (x d : Q) :
  isotropic n (x / d) (mat_div (mat_mul (eye n) x) d).
Proof.
  split; [apply mat_length |].
  intros i j Hi Hj. rewrite mat_entry by assumption.
  destruct (Nat.eqb i j); unfold Qdiv; ring.
Qed.

Lemma mat_all_zero (n : nat) (x d : Q) :
  x == 0 -> all_zero (mat_div (mat_mul (eye n) x) d) = true.
Proof.
  intro Hx. unfold all_zero, mat_div, mat_mul, eye.
  apply forallb_forall. intros row Hrow.
  apply in_map_iff in Hrow as [row1 [<- Hrow]].
  apply in_map_iff in Hrow as [row0 [<- Hrow]].
  apply forallb_forall. intros e He.
  apply in_map_iff in He as [e1 [<- He]].
  apply in_map_iff in He as [e0 [<- He]].
  apply Qeq_bool_iff. rewrite Hx. unfold Qdiv. ring.
Qed.

Lemma clamp_negative_Qeq (a b : list Q) :
  Forall2 Qeq a b -> Forall2 Qeq (clamp_negative a) (clamp_negative b).
Proof.
  unfold clamp_negative. induction 1 as [| x y a b Hxy Hab IH]; cbn [map].
  - constructor.
  - constructor; [| exact IH].
    unfold Qltb. rewrite Hxy. destruct (Qle_bool 0 y); cbn; [exact Hxy | reflexivity].
Qed.

(** An isotropic draw of size [n] around [mean], as [initialise_transaction_probabilities]
    makes it: the answer has [n] entries and is the mean when [x] is zero. *)
Lemma ensures_multivariate_normal (mean : list Q) (n : nat) (x d : Q)
  (P : list Q -> Prop) :
  (forall v, length mean = n -> length v = n ->
             (x == 0 -> Forall2 Qeq v mean) -> P v) ->
  ensures (multivariate_normal mean (mat_div (mat_mul (eye n) x) d)) P.
Proof.
  intro HP. unfold multivariate_normal. rewrite mat_length.
  destruct (forallb _ _ && Nat.eqb (length mean) n) eqn:E; cbn [ensures]; [| exact I].
  apply andb_true_iff in E as [_ E]. apply Nat.eqb_eq in E.
  intros v [Hlen Hzero]. apply HP.
  - exact E.
  - rewrite Hlen. exact E.
  - intro Hx. apply Hzero. apply mat_all_zero. exact Hx.
Qed.

(** ** Initialisation *)

Section Initialisation.
Context {W : World}.


(** What [initialise_transaction_probabilities] establishes for one curve of
    [n] entries drawn around [mean] at noise level [noise]. *)
Definition curve_ok (n : nat) (noise : Q) (mean curve : list Q) : Prop :=
  length mean = n /\ length curve = n /\ nonneg curve /\
  (noise == 0 -> Forall2 Qeq curve (clamp_negative mean)).

Lemma curve_ok_clamp (n : nat) (noise : Q) (mean v : list Q) :
  length mean = n -> length v = n -> (noise == 0 -> Forall2 Qeq v mean) ->
  curve_ok n noise mean (clamp_negative v).
Proof.
  intros Hm Hv Hz. repeat split.
  - exact Hm.
  - rewrite clamp_negative_length. exact Hv.
  - apply clamp_negative_nonneg.
  - intro H0. apply clamp_negative_Qeq. apply Hz. exact H0.
Qed.

Definition curves_ok (noise : Q) (tables : Params.t) (f : bool)
  (curves : list Q * list Q * list Q * list Q) : Prop :=
  let '(mo, md, wd, ho) := curves in
  curve_ok 12 noise (Params.frac_month tables f) mo /\
  curve_ok 31 noise (Params.frac_monthday tables f) md /\
  curve_ok 7 noise (Params.frac_weekday tables f) wd /\
  curve_ok 24 noise (Params.frac_hour tables f) ho.

Lemma initialise_transaction_probabilities_ensures (self : self_t) :
  ensures (UniMausCustomer.initialise_transaction_probabilities self)
    (curves_ok (noise_level self) (params self) (fraudster self)).
Proof.
  unfold UniMausCustomer.initialise_transaction_probabilities.
  apply ensures_bind, ensures_multivariate_normal. intros mo Hm1 Hm2 Hm3.
  apply ensures_bind, ensures_multivariate_normal. intros md Hd1 Hd2 Hd3.
  apply ensures_bind, ensures_multivariate_normal. intros wd Hw1 Hw2 Hw3.
  apply ensures_bind, ensures_multivariate_normal. intros ho Hh1 Hh2 Hh3.
  cbn [ensures curves_ok].
  repeat split; try assumption;
    try (rewrite clamp_negative_length; assumption);
    try apply clamp_negative_nonneg;
    intro H0; apply clamp_negative_Qeq; auto.
Qed.

(** The customer [__init__] returns, in terms of the tables it was built from. *)
Definition initialised (self0 self : self_t) : Prop :=
  let tables := params self0 in
  let f := fraudster self0 in
  let b := Params.trans_per_year tables f in
  let mot := Params.transaction_motivation tables f in
  curves_ok (Params.noise_level tables) tables f
    (trans_prob_month self, trans_prob_monthday self,
     trans_prob_weekday self, trans_prob_hour self) /\
  (0 <= b -> 0 <= mot -> 0 <= avg_trans_per_hour self) /\
  (Params.noise_level tables == 0 -> avg_trans_per_hour self == b / 366 / 24 * mot) /\
  params self = params self0 /\ fraudster self = fraudster self0.

Lemma rate_nonneg (b a mot : Q) :
  0 <= b -> 0 <= mot ->
  0 <= (if Qltb 0 (b + a) then b + a else b) / 366 / 24 * mot.
Proof.
  intros Hb Hmot. apply Qmult_le_0_compat; [| exact Hmot].
  unfold Qdiv. repeat apply Qmult_le_0_compat; try (apply Qinv_le_0_compat; lra).
  destruct (Qltb 0 (b + a)) eqn:E.
  - apply Qltb_lt in E. lra.
  - exact Hb.
Qed.

Lemma rate_quiet (b a mot : Q) :
  a == 0 ->
  (if Qltb 0 (b + a) then b + a else b) / 366 / 24 * mot == b / 366 / 24 * mot.
Proof.
  intro Ha. destruct (Qltb 0 (b + a)); [| reflexivity].
  rewrite Ha. unfold Qdiv. ring.
Qed.

Lemma init_ensures (self0 : self_t) :
  ensures (UniMausCustomer.__init__ self0) (initialised self0).
Proof.
  unfold UniMausCustomer.__init__. apply ensures_bind.
  unfold normal. destruct (Qltb _ 0); cbn [ensures]; [exact I |].
  intros a Ha. cbn in Ha.
  apply ensures_bind.
  eapply ensures_weaken;
    [| apply initialise_transaction_probabilities_ensures].
  intros [[[mo md] wd] ho] Hc. cbn [ensures]. cbn in Hc.
  unfold initialised. cbn. repeat split; try apply Hc.
  - apply rate_nonneg.
  - intro H0. apply rate_quiet. apply Ha. rewrite H0. ring.
Qed.

End Initialisation.

(** ** Execution of the library calls *)

Section Calls.
Context {R : RandomState}.

Lemma run_uniform (low high : Q) (g : generator) :
  run (uniform low high) g = (Returns (fst (sample (Uniform low high) g)),
                              snd (sample (Uniform low high) g)).
Proof.
  reflexivity.
Qed.

Lemma run_multivariate_normal (mean : list Q) (cov : list (list Q)) (g : generator) (v : list Q)
  (g' : generator) :
  run (multivariate_normal mean cov) g = (Returns v, g') ->
  requests (multivariate_normal mean cov) g = [MultivariateNormal mean cov] /\
  v = fst (sample (MultivariateNormal mean cov) g) /\
  g' = snd (sample (MultivariateNormal mean cov) g).
Proof.
  unfold multivariate_normal.
  destruct (forallb _ cov && Nat.eqb (length mean) (length cov));
    cbn [run requests]; intro H.
  - injection H as <- <-. repeat split.
  - discriminate H.
Qed.

Lemma run_normal (loc scale : Q) (g : generator) (a : Q) (g' : generator) :
  run (normal loc scale) g = (Returns a, g') ->
  requests (normal loc scale) g = [Normal loc scale] /\
  a = fst (sample (Normal loc scale) g) /\
  g' = snd (sample (Normal loc scale) g).
Proof.
  unfold normal. destruct (Qltb scale 0); cbn [run requests]; intro H.
  - discriminate H.
  - injection H as <- <-. repeat split.
Qed.

(** A sequenced tree returns only if its first part does. *)
Lemma run_bind_returns {A B : Type} (m : rand A) (f : A -> rand B)
  (g : generator) (b : B) (g' : generator) :
  run (bind m f) g = (Returns b, g') ->
  exists a g1, run m g = (Returns a, g1) /\ run (f a) g1 = (Returns b, g').
Proof.
  rewrite run_bind. destruct (run m g) as [[a | e] g1]; intro H.
  - exists a, g1. split; [reflexivity | exact H].
  - discriminate H.
Qed.

End Calls.

(** ** What initialisation draws *)

(** The covariance the specification gives for a dimension:
    [noise_level / (100 * dimension_size)]. *)
Definition spec_covariance (noise : Q) (dimension_size : nat) : Q :=
  noise / (100 * inject_Z (Z.of_nat dimension_size)).

Section InitialisationClaims.
Context {W : World} {R : RandomState}.

Lemma initialise_transaction_probabilities_trace (self : self_t) (g : generator)
  (curves : list Q * list Q * list Q * list Q) (g' : generator) :
  run (UniMausCustomer.initialise_transaction_probabilities self) g = (Returns curves, g') ->
  let f := fraudster self in
  let r1 := MultivariateNormal (Params.frac_month (params self) f)
              (mat_div (mat_mul (eye 12) (noise_level self)) 1200) in
  let g1 := snd (sample r1 g) in
  let r2 := MultivariateNormal (Params.frac_monthday (params self) f)
              (mat_div (mat_mul (eye 31) (noise_level self)) 305) in
  let g2 := snd (sample r2 g1) in
  let r3 := MultivariateNormal (Params.frac_weekday (params self) f)
              (mat_div (mat_mul (eye 7) (noise_level self)) 70) in
  let g3 := snd (sample r3 g2) in
  let r4 := MultivariateNormal (Params.frac_hour (params self) f)
              (mat_div (mat_mul (eye 24) (noise_level self)) 240) in
  requests (UniMausCustomer.initialise_transaction_probabilities self) g = [r1; r2; r3; r4] /\
  curves = (clamp_negative (fst (sample r1 g)), clamp_negative (fst (sample r2 g1)),
            clamp_negative (fst (sample r3 g2)), clamp_negative (fst (sample r4 g3))).
Proof.
  unfold UniMausCustomer.initialise_transaction_probabilities. intro H.
  apply run_bind_returns in H as (x1 & h1 & H1 & H).
  pose proof (run_multivariate_normal _ _ _ _ _ H1) as (T1 & -> & ->).
  apply run_bind_returns in H as (x2 & h2 & H2 & H).
  pose proof (run_multivariate_normal _ _ _ _ _ H2) as (T2 & -> & ->).
  apply run_bind_returns in H as (x3 & h3 & H3 & H).
  pose proof (run_multivariate_normal _ _ _ _ _ H3) as (T3 & -> & ->).
  apply run_bind_returns in H as (x4 & h4 & H4 & H).
  pose proof (run_multivariate_normal _ _ _ _ _ H4) as (T4 & -> & ->).
  cbn [run] in H. injection H as <- _.
  split; [| reflexivity].
  rewrite requests_bind, H1, T1. cbn [app]. f_equal.
  rewrite requests_bind, H2, T2. cbn [app]. f_equal.
  rewrite requests_bind, H3, T3. cbn [app]. f_equal.
  rewrite requests_bind, H4, T4. reflexivity.
Qed.

(** C3, as the code has it.  Whenever [initialise_transaction_probabilities]
    returns, it has made exactly four requests, in the order month, day of
    month, weekday, hour: each a multivariate normal draw centred on the
    class's mean curve, with isotropic covariance [noise_level / 1200] for the
    12 months, [noise_level / 305] for the 31 days, [noise_level / 70] for the
    7 weekdays and [noise_level / 240] for the 24 hours; each returned curve
    is the answer with its negative entries set to zero. *)
Theorem initialise_transaction_probabilities_draws (self : self_t) (g : generator)
  (curves : list Q * list Q * list Q * list Q) :
  fst (run (UniMausCustomer.initialise_transaction_probabilities self) g) = Returns curves ->
  exists c1 c2 c3 c4 v1 v2 v3 v4 g1 g2 g3,
    let f := fraudster self in
    let r1 := MultivariateNormal (Params.frac_month (params self) f) c1 in
    let r2 := MultivariateNormal (Params.frac_monthday (params self) f) c2 in
    let r3 := MultivariateNormal (Params.frac_weekday (params self) f) c3 in
    let r4 := MultivariateNormal (Params.frac_hour (params self) f) c4 in
    requests (UniMausCustomer.initialise_transaction_probabilities self) g = [r1; r2; r3; r4] /\
    isotropic 12 (noise_level self / 1200) c1 /\
    isotropic 31 (noise_level self / 305) c2 /\
    isotropic 7 (noise_level self / 70) c3 /\
    isotropic 24 (noise_level self / 240) c4 /\
    sample r1 g = (v1, g1) /\ sample r2 g1 = (v2, g2) /\
    sample r3 g2 = (v3, g3) /\ fst (sample r4 g3) = v4 /\
    curves = (clamp_negative v1, clamp_negative v2, clamp_negative v3, clamp_negative v4).
Proof.
  destruct (run (UniMausCustomer.initialise_transaction_probabilities self) g)
    as [r g'] eqn:E.
  cbn [fst]. intros ->.
  destruct (initialise_transaction_probabilities_trace _ _ _ _ E) as [Hreq Hc].
  do 4 eexists. do 4 eexists. do 3 eexists. cbv zeta.
  split; [exact Hreq |].
  split; [apply mat_isotropic |].
  split; [apply mat_isotropic |].
  split; [apply mat_isotropic |].
  split; [apply mat_isotropic |].
  split; [apply surjective_pairing |].
  split; [apply surjective_pairing |].
  split; [apply surjective_pairing |].
  split; [reflexivity | exact Hc].
Qed.

End InitialisationClaims.

Section RateClaims.
Context {W : World} {R : RandomState}.

Lemma init_rate (self0 self : self_t) (g g' : generator) :
  run (UniMausCustomer.__init__ self0) g = (Returns self, g') ->
  let b := Params.trans_per_year (params self0) (fraudster self0) in
  let mot := Params.transaction_motivation (params self0) (fraudster self0) in
  let noise := Normal 0 (Params.noise_level (params self0) * b) in
  let a := fst (sample noise g) in
  hd_error (requests (UniMausCustomer.__init__ self0) g) = Some noise /\
  avg_trans_per_hour self = (if Qltb 0 (b + a) then b + a else b) / 366 / 24 * mot.
Proof.
  unfold UniMausCustomer.__init__. intro H.
  apply run_bind_returns in H as (a & g1 & Ha & H).
  pose proof (run_normal _ _ _ _ _ Ha) as (T & -> & ->).
  apply run_bind_returns in H as (curves & g2 & Hc & H).
  cbn [run] in H. injection H as <- _.
  split.
  - rewrite requests_bind, T. reflexivity.
  - destruct curves as [[[mo md] wd] ho]. reflexivity.
Qed.

(** C8, as the code has it.  Whenever the constructor returns, its first
    request to the generator is a normal draw with location 0 and scale
    [noise_level * b], where [b] is the class's yearly transaction count; with
    [a] the answer, [avg_trans_per_hour] is [(b + a) / (366 * 24)] times the
    class's motivation factor when [b + a] is strictly positive, and
    [b / (366 * 24)] times that factor when [b + a] is zero or negative. *)
Theorem init_rate_rejects_nonpositive (self0 self : self_t) (g : generator) :
  fst (run (UniMausCustomer.__init__ self0) g) = Returns self ->
  let b := Params.trans_per_year (params self0) (fraudster self0) in
  let mot := Params.transaction_motivation (params self0) (fraudster self0) in
  let noise := Normal 0 (Params.noise_level (params self0) * b) in
  let a := fst (sample noise g) in
  hd_error (requests (UniMausCustomer.__init__ self0) g) = Some noise /\
  (0 < b + a -> avg_trans_per_hour self == (b + a) / (366 * 24) * mot) /\
  (b + a <= 0 -> avg_trans_per_hour self == b / (366 * 24) * mot).
Proof.
  destruct (run (UniMausCustomer.__init__ self0) g) as [r g'] eqn:E.
  cbn [fst]. intros ->. cbv zeta.
  destruct (init_rate _ _ _ _ E) as [Hreq Havg].
  split; [exact Hreq |]. rewrite Havg. split; intro H.
  - apply Qltb_lt in H. rewrite H. field.
  - apply Qltb_ge in H. rewrite H. field.
Qed.

(** C2.  A customer returned by the constructor (of the base class, which
    the fraudulent class inherits, or of the genuine class) under a generator
    that keeps the library's promises has a month curve of 12, a day-of-month
    curve of 31, a weekday curve of 7 and an hour curve of 24 entries, none
    of them negative, whatever the noise level and the draws; and its
    [avg_trans_per_hour] is not negative when the class's yearly count and
    motivation factor are not. *)
Theorem init_curves_and_rate_nonneg (self0 self : self_t) (g : generator) :
  lawful_generator R ->
  fst (run (UniMausCustomer.__init__ self0) g) = Returns self \/
  fst (run (UniMausGenuineCustomer.__init__ self0) g) = Returns self ->
  (length (trans_prob_month self) = 12%nat /\ nonneg (trans_prob_month self)) /\
  (length (trans_prob_monthday self) = 31%nat /\ nonneg (trans_prob_monthday self)) /\
  (length (trans_prob_weekday self) = 7%nat /\ nonneg (trans_prob_weekday self)) /\
  (length (trans_prob_hour self) = 24%nat /\ nonneg (trans_prob_hour self)) /\
  (0 <= Params.trans_per_year (params self0) (fraudster self0) ->
   0 <= Params.transaction_motivation (params self0) (fraudster self0) ->
   0 <= avg_trans_per_hour self).
Proof.
  intros HR H.
  assert (Hinit : exists base, initialised self0 base /\ self = base \/
                               initialised self0 base /\ self = set_card_corrupted false base).
  { destruct H as [H | H].
    - exists self. left. split; [| reflexivity].
      exact (ensures_run _ _ _ _ HR (init_ensures self0) H).
    - unfold UniMausGenuineCustomer.__init__ in H.
      destruct (run (self1 <- UniMausCustomer.__init__ self0 ;; Ret (set_card_corrupted false self1)) g)
        as [r g'] eqn:E.
      cbn [fst] in H. subst r.
      apply run_bind_returns in E as (base & g1 & Hb & E).
      cbn [run] in E. injection E as <- _.
      exists base. right. split; [| reflexivity].
      apply (ensures_run _ _ g _ HR (init_ensures self0)). rewrite Hb. reflexivity. }
  destruct Hinit as [base [[Hi ->] | [Hi ->]]];
    destruct Hi as ((Hmo & Hmd & Hwd & Hho) & Havg & _);
    destruct Hmo as (_ & ? & ? & _); destruct Hmd as (_ & ? & ? & _);
    destruct Hwd as (_ & ? & ? & _); destruct Hho as (_ & ? & ? & _);
    cbn; auto 10.
Qed.

End RateClaims.

(** ** The transaction probability *)

(** [curve[i]] for a position known to be in range. *)
Definition entry (curve : list Q) (i : Z) : Q := nth (Z.to_nat i) curve 0.

(** The curve is the class mean with its negative entries set to zero, hence
    the class mean itself when that has no negative entry. *)
Definition undisturbed (mean curve : list Q) : Prop :=
  Forall2 Qeq curve (clamp_negative mean) /\
  (nonneg mean -> Forall2 Qeq curve mean).

Lemma Forall2_Qeq_refl (a : list Q) : Forall2 Qeq a a.
Proof.
  induction a; constructor; [reflexivity | assumption].
Qed.

Lemma Forall2_Qeq_trans (a b c : list Q) :
  Forall2 Qeq a b -> Forall2 Qeq b c -> Forall2 Qeq a c.
Proof.
  intro Hab. revert c. induction Hab as [| x y a b Hxy Hab IH]; intros c Hbc.
  - exact Hbc.
  - inversion Hbc as [| ? z ? c' Hyz Hbc']; subst. constructor.
    + rewrite Hxy. exact Hyz.
    + apply IH. exact Hbc'.
Qed.

Lemma undisturbed_intro (mean curve : list Q) :
  Forall2 Qeq curve (clamp_negative mean) -> undisturbed mean curve.
Proof.
  intro H. split; [exact H |]. intro Hnn.
  apply (Forall2_Qeq_trans _ _ _ H).
  apply clamp_negative_id; [apply Forall2_Qeq_refl | exact Hnn].
Qed.

Section ProbabilityClaims.
Context {W : World} {R : RandomState}.

Lemma get_curr_transaction_prob_in_range (self : self_t) (mdl : model) (dt : datetime) :
  UniMausCustomer.get_local_datetime self mdl = Returns dt ->
  (0 <= month dt - 1 < Z.of_nat (length (trans_prob_month self)))%Z ->
  (0 <= hour dt < Z.of_nat (length (trans_prob_hour self)))%Z ->
  (0 <= day dt - 1 < Z.of_nat (length (trans_prob_monthday self)))%Z ->
  (weekday dt < Z.of_nat (length (trans_prob_weekday self)))%Z ->
  UniMausCustomer.get_curr_transaction_prob self mdl =
  Returns (avg_trans_per_hour self
           * (12 * entry (trans_prob_month self) (month dt - 1))
           * (24 * entry (trans_prob_hour self) (hour dt))
           * (30.5 * entry (trans_prob_monthday self) (day dt - 1))
           * (7 * entry (trans_prob_weekday self) (weekday dt))).
Proof.
  intros Hdt Hmo Hho Hda Hwd.
  unfold UniMausCustomer.get_curr_transaction_prob. rewrite Hdt.
  rewrite (getitem_nth _ _ 0 Hmo), (getitem_nth _ _ 0 Hho), (getitem_nth _ _ 0 Hda).
  rewrite (getitem_nth _ (weekday dt) 0)
    by (split; [apply weekday_range | exact Hwd]).
  reflexivity.
Qed.

(** C1.  (a) When the local time resolves to month [mo], day [da], weekday
    [wd] and hour [ho], and the curves have an entry at the positions
    [mo - 1], [ho], [da - 1] and [wd], [get_curr_transaction_prob] returns
    [avg_trans_per_hour * (12 * month[mo-1]) * (24 * hour[ho])
     * (30.5 * day[da-1]) * (7 * weekday[wd])].
    (b) For a customer built by the constructor with [noise_level] zero, under
    a generator that keeps the library's promises: each curve is the class's
    mean curve (negative entries, if the table has any, set to zero),
    [avg_trans_per_hour] is the class's yearly count over 366 and 24 times
    the motivation factor, and at local time month 1, day 1, weekday 0,
    hour 0 the call returns the product of [avg_trans_per_hour] with
    [12 * month[0]], [24 * hour[0]], [30.5 * day[0]] and [7 * weekday[0]]. *)
Theorem get_curr_transaction_prob_product :
  (forall (self : self_t) (mdl : model) (dt : datetime) (mo da wd ho : Z),
      UniMausCustomer.get_local_datetime self mdl = Returns dt ->
      month dt = mo -> day dt = da -> weekday dt = wd -> hour dt = ho ->
      (1 <= mo <= Z.of_nat (length (trans_prob_month self)))%Z ->
      (1 <= da <= Z.of_nat (length (trans_prob_monthday self)))%Z ->
      (wd < Z.of_nat (length (trans_prob_weekday self)))%Z ->
      (0 <= ho < Z.of_nat (length (trans_prob_hour self)))%Z ->
      UniMausCustomer.get_curr_transaction_prob self mdl =
      Returns (avg_trans_per_hour self
               * (12 * entry (trans_prob_month self) (mo - 1))
               * (24 * entry (trans_prob_hour self) ho)
               * (30.5 * entry (trans_prob_monthday self) (da - 1))
               * (7 * entry (trans_prob_weekday self) wd)))
  /\
  (forall (self0 self : self_t) (g : generator) (mdl : model) (dt : datetime),
      lawful_generator R ->
      Params.noise_level (params self0) == 0 ->
      fst (run (UniMausCustomer.__init__ self0) g) = Returns self ->
      UniMausCustomer.get_local_datetime self mdl = Returns dt ->
      month dt = 1%Z -> day dt = 1%Z -> weekday dt = 0%Z -> hour dt = 0%Z ->
      let tables := params self0 in
      let f := fraudster self0 in
      undisturbed (Params.frac_month tables f) (trans_prob_month self) /\
      undisturbed (Params.frac_monthday tables f) (trans_prob_monthday self) /\
      undisturbed (Params.frac_weekday tables f) (trans_prob_weekday self) /\
      undisturbed (Params.frac_hour tables f) (trans_prob_hour self) /\
      avg_trans_per_hour self ==
        Params.trans_per_year tables f / 366 / 24 * Params.transaction_motivation tables f /\
      UniMausCustomer.get_curr_transaction_prob self mdl =
      Returns (avg_trans_per_hour self
               * (12 * entry (trans_prob_month self) 0)
               * (24 * entry (trans_prob_hour self) 0)
               * (30.5 * entry (trans_prob_monthday self) 0)
               * (7 * entry (trans_prob_weekday self) 0))).
Proof.
  split.
  - intros self mdl dt mo da wd ho Hdt <- <- <- <- Hmo Hda Hwd Hho.
    apply get_curr_transaction_prob_in_range; try assumption; lia.
  - intros self0 self g mdl dt HR Hnoise Hrun Hdt Hmo Hda Hwd Hho. cbv zeta.
    pose proof (ensures_run _ _ _ _ HR (init_ensures self0) Hrun) as Hi.
    destruct Hi as ((Cmo & Cmd & Cwd & Cho) & _ & Havg & _).
    destruct Cmo as (_ & Lmo & _ & Zmo). destruct Cmd as (_ & Lmd & _ & Zmd).
    destruct Cwd as (_ & Lwd & _ & Zwd). destruct Cho as (_ & Lho & _ & Zho).
    split; [apply undisturbed_intro; auto |].
    split; [apply undisturbed_intro; auto |].
    split; [apply undisturbed_intro; auto |].
    split; [apply undisturbed_intro; auto |].
    split; [auto |].
    rewrite (get_curr_transaction_prob_in_range self mdl dt Hdt).
    + rewrite Hmo, Hda, Hwd, Hho. reflexivity.
    + rewrite Hmo, Lmo. lia.
    + rewrite Hho, Lho. lia.
    + rewrite Hda, Lmd. lia.
    + rewrite Hwd, Lwd. lia.
Qed.

End ProbabilityClaims.

(** ** The transaction decision *)

Section DecisionClaims.
Context {W : World} {R : RandomState}.

Lemma run_decide_making_transaction (self : self_t) (mdl : model) (g : generator) (p : Q) :
  UniMausCustomer.get_curr_transaction_prob self mdl = Returns p ->
  run (UniMausCustomer.decide_making_transaction self mdl) g =
    (Returns (Qltb (fst (sample (Uniform 0 1) g)) p), snd (sample (Uniform 0 1) g)) /\
  requests (UniMausCustomer.decide_making_transaction self mdl) g = [Uniform 0 1].
Proof.
  intro Hp. unfold UniMausCustomer.decide_making_transaction.
  rewrite run_bind, requests_bind, run_lift, requests_lift, Hp.
  split; reflexivity.
Qed.

Lemma decide_making_transaction_returns (self : self_t) (mdl : model)
  (g g1 : generator) (do_trans : bool) :
  run (UniMausCustomer.decide_making_transaction self mdl) g = (Returns do_trans, g1) ->
  exists p, UniMausCustomer.get_curr_transaction_prob self mdl = Returns p.
Proof.
  unfold UniMausCustomer.decide_making_transaction. intro H.
  apply run_bind_returns in H as (p & g0 & Hp & _).
  rewrite run_lift in Hp. injection Hp as Hp _. exists p. exact Hp.
Qed.

(** C5.  Under a generator that keeps the library's promises:
    (a) when the transaction probability is [p], the base decision makes one
    request, a uniform draw [u] from [[0, 1)], and returns true exactly when
    [u < p];
    (b) when the four curve entries at the current local time are all zero,
    it returns false. *)
Theorem decide_making_transaction_threshold (self : self_t) (mdl : model) (g : generator) :
  lawful_generator R ->
  let u := fst (sample (Uniform 0 1) g) in
  let decision := fst (run (UniMausCustomer.decide_making_transaction self mdl) g) in
  (forall p, UniMausCustomer.get_curr_transaction_prob self mdl = Returns p ->
     requests (UniMausCustomer.decide_making_transaction self mdl) g = [Uniform 0 1] /\
     0 <= u /\ u < 1 /\
     (decision = Returns true <-> u < p) /\
     (decision = Returns false <-> p <= u))
  /\
  (forall dt m h d w,
     UniMausCustomer.get_local_datetime self mdl = Returns dt ->
     getitem (trans_prob_month self) (month dt - 1) = Returns m ->
     getitem (trans_prob_hour self) (hour dt) = Returns h ->
     getitem (trans_prob_monthday self) (day dt - 1) = Returns d ->
     getitem (trans_prob_weekday self) (weekday dt) = Returns w ->
     m == 0 -> h == 0 -> d == 0 -> w == 0 ->
     decision = Returns false).
Proof.
  intros HR u decision.
  assert (Hu : 0 <= u /\ u < 1) by (apply (HR (Uniform 0 1) g); reflexivity).
  assert (Hp : forall p, UniMausCustomer.get_curr_transaction_prob self mdl = Returns p ->
                         decision = Returns (Qltb u p)).
  { intros p E. unfold decision.
    destruct (run_decide_making_transaction self mdl g p E) as [-> _]. reflexivity. }
  split.
  - intros p E. rewrite (Hp p E).
    split; [apply (run_decide_making_transaction self mdl g p E) |].
    split; [apply Hu |]. split; [apply Hu |]. split.
    + rewrite <- Qltb_lt. split; [intros [= ->]; reflexivity | intros ->; reflexivity].
    + rewrite <- Qltb_ge. split; [intros [= ->]; reflexivity | intros ->; reflexivity].
  - intros dt m h d w Hdt Hm Hh Hd Hw Zm Zh Zd Zw.
    rewrite (Hp (avg_trans_per_hour self * (12 * m) * (24 * h) * (30.5 * d) * (7 * w))).
    + f_equal. apply Qltb_ge. rewrite Zm. destruct Hu as [Hu _]. 
      setoid_replace (avg_trans_per_hour self * (12 * 0) * (24 * h) * (30.5 * d) * (7 * w))
        with 0 by ring.
      exact Hu.
    + unfold UniMausCustomer.get_curr_transaction_prob.
      rewrite Hdt, Hm, Hh, Hd, Hw. reflexivity.
Qed.

(** C4, as the code has it.  When the base decision returns [do_trans], the
    genuine customer's decision has made two requests, both uniform draws
    from [[0, 1)]: the base decision's, and a second one [u] that is made on
    every call, whatever [do_trans] and [card_corrupted] are.  The call
    returns false and sets [stay] to false exactly when [do_trans] and
    [card_corrupted] hold and [u < 1 - stay_after_fraud]; otherwise it
    returns [do_trans] and leaves the customer as it was.  In particular,
    when [do_trans] and [card_corrupted] hold and [stay_after_fraud] is
    zero, it returns false and sets [stay] to false.  The call never turns
    a false [stay] into a true one. *)
Theorem genuine_decide_making_transaction (self : self_t) (mdl : model)
  (g g1 : generator) (do_trans : bool) :
  lawful_generator R ->
  run (UniMausCustomer.decide_making_transaction self mdl) g = (Returns do_trans, g1) ->
  let u := fst (sample (Uniform 0 1) g1) in
  let leave_after_fraud := Qltb u (1 - Params.stay_after_fraud (params self)) in
  let outcome := fst (run (UniMausGenuineCustomer.decide_making_transaction self mdl) g) in
  requests (UniMausGenuineCustomer.decide_making_transaction self mdl) g
    = [Uniform 0 1; Uniform 0 1] /\
  (leave_after_fraud = true <-> u < 1 - Params.stay_after_fraud (params self)) /\
  (do_trans = true -> card_corrupted self = true -> leave_after_fraud = true ->
   outcome = Returns (false, set_stay false self)) /\
  (do_trans = false \/ card_corrupted self = false \/ leave_after_fraud = false ->
   outcome = Returns (do_trans, self)) /\
  (do_trans = true -> card_corrupted self = true ->
   Params.stay_after_fraud (params self) == 0 ->
   outcome = Returns (false, set_stay false self)) /\
  (forall b self', outcome = Returns (b, self') -> stay self = false -> stay self' = false).
Proof.
  intros HR Hbase u leave_after_fraud outcome.
  assert (Hu : 0 <= u /\ u < 1) by (apply (HR (Uniform 0 1) g1); reflexivity).
  assert (Hreq : requests (UniMausGenuineCustomer.decide_making_transaction self mdl) g
                 = [Uniform 0 1; Uniform 0 1]).
  { unfold UniMausGenuineCustomer.decide_making_transaction.
    destruct (decide_making_transaction_returns _ _ _ _ _ Hbase) as [p Hp].
    destruct (run_decide_making_transaction self mdl g p Hp) as [_ Hreq].
    rewrite requests_bind, Hreq, Hbase, requests_bind, run_uniform.
    cbn [uniform requests app].
    destruct (do_trans && card_corrupted self && _); reflexivity. }
  assert (Hout : outcome =
                 Returns (if do_trans && card_corrupted self && leave_after_fraud
                          then (false, set_stay false self) else (do_trans, self))).
  { unfold outcome, UniMausGenuineCustomer.decide_making_transaction.
    rewrite run_bind, Hbase, run_bind, run_uniform.
    fold u. fold leave_after_fraud.
    destruct (do_trans && card_corrupted self && leave_after_fraud); reflexivity. }
  split; [exact Hreq |].
  split; [apply Qltb_lt |].
  split; [intros E1 E2 E3; rewrite Hout, E1, E2, E3; reflexivity |].
  split.
  { intros [E | [E | E]]; rewrite Hout, E, ?andb_false_r; reflexivity. }
  split.
  { intros E1 E2 Hzero. rewrite Hout, E1, E2.
    replace leave_after_fraud with true; [reflexivity |].
    symmetry. apply Qltb_lt. rewrite Hzero. destruct Hu as [_ Hu]. lra. }
  intros b self' E Hstay. rewrite Hout in E.
  destruct (do_trans && card_corrupted self && leave_after_fraud);
    injection E as _ <-; [reflexivity | exact Hstay].
Qed.

(** [decide_staying] makes one uniform draw and never turns a false [stay]
    into a true one. *)
Lemma decide_staying_keeps_false (self : self_t) (g : generator) :
  exists self', fst (run (UniMausCustomer.decide_staying self) g) = Returns self' /\
                (stay self = false -> stay self' = false) /\
                requests (UniMausCustomer.decide_staying self) g = [Uniform 0 1].
Proof.
  unfold UniMausCustomer.decide_staying. cbn [uniform bind run requests fst].
  destruct (Qltb _ _); eexists; repeat split; auto.
Qed.

End DecisionClaims.

(** ** The purchase *)

Section PurchaseClaims.
Context {W : World} {R : RandomState}.

Lemma run_choice_accepted {A : Type} (a0 : A) (rest : list A) (p : option (list Q))
  (g : generator) :
  match p with
  | Some pv => probabilities (length (a0 :: rest)) pv = true
  | None => True
  end ->
  run (choice (a0 :: rest) p) g =
    (Returns (nth (fst (sample (Choice (length (a0 :: rest)) p) g)) (a0 :: rest) a0),
     snd (sample (Choice (length (a0 :: rest)) p) g)).
Proof.
  intro Hp. unfold choice. destruct p as [pv |].
  - rewrite Hp. reflexivity.
  - reflexivity.
Qed.

Lemma run_choice_returns {A : Type} (a : list A) (p : option (list Q))
  (g g' : generator) (x : A) :
  run (choice a p) g = (Returns x, g') -> In x a.
Proof.
  unfold choice. destruct a as [| a0 rest]; [discriminate |].
  destruct (match p with Some pv => _ | None => true end); [| discriminate].
  intro H.
  assert (Hx : x = nth (fst (sample (Choice (length (a0 :: rest)) p) g)) (a0 :: rest) a0).
  { change (run (Sample (Choice (length (a0 :: rest)) p) (fun i => Ret (nth i (a0 :: rest) a0))) g)
      with (Returns (nth (fst (sample (Choice (length (a0 :: rest)) p) g)) (a0 :: rest) a0),
            snd (sample (Choice (length (a0 :: rest)) p) g)) in H.
    injection H as H _. symmetry. exact H. }
  rewrite Hx.
  destruct (nth_in_or_default (fst (sample (Choice (length (a0 :: rest)) p) g))
              (a0 :: rest) a0) as [Hin | ->].
  - exact Hin.
  - left. reflexivity.
Qed.

(** The first merchant of the registry with the given id, as the list
    comprehension and [[0]] find it. *)
Lemma registry_lookup (mdl : model) (merchant_ID : Z) :
  match filter (fun m => (merchant_unique_id m =? merchant_ID)%Z) (merchants mdl) with
  | m :: _ => In m (merchants mdl) /\ merchant_unique_id m = merchant_ID
  | [] => forall m, In m (merchants mdl) -> merchant_unique_id m <> merchant_ID
  end.
Proof.
  destruct (filter _ (merchants mdl)) as [| m rest] eqn:E.
  - intros m Hin Heq.
    assert (Hf : In m (filter (fun m => (merchant_unique_id m =? merchant_ID)%Z) (merchants mdl))).
    { apply filter_In. split; [exact Hin | apply Z.eqb_eq; exact Heq]. }
    rewrite E in Hf. exact Hf.
  - assert (Hf : In m (filter (fun m => (merchant_unique_id m =? merchant_ID)%Z) (merchants mdl))).
    { rewrite E. left. reflexivity. }
    apply filter_In in Hf as [Hin Heq]. split; [exact Hin | apply Z.eqb_eq; exact Heq].
Qed.

Lemma run_pick_curr_merchant (self : self_t) (mdl : model) (g : generator)
  (row : list (Z * Q)) :
  lawful_generator R ->
  loc (Params.merchant_per_currency (params self) (fraudster self)) (currency self)
    = Returns row ->
  row <> [] ->
  probabilities (length row) (map snd row) = true ->
  let i := fst (sample (Choice (length row) (Some (map snd row))) g) in
  ((i < length row)%nat /\ 0 < nth i (map snd row) 0) /\
  fst (run (UniMausCustomer.pick_curr_merchant self mdl) g) =
  match filter (fun m => (merchant_unique_id m =? nth i (map fst row) 0%Z)%Z) (merchants mdl) with
  | m :: _ => Returns m
  | [] => Raises IndexError
  end.
Proof.
  intros HR Hrow Hne Hp i.
  assert (Hi : (i < length row)%nat /\ 0 < nth i (map snd row) 0).
  { destruct row as [| r rest]; [contradiction |].
    destruct (HR (Choice (length (r :: rest)) (Some (map snd (r :: rest)))) g) as [Hlt Hpos].
    - cbn. lia.
    - split; [exact Hlt | exact (Hpos Hp)]. }
  split; [exact Hi |].
  unfold UniMausCustomer.pick_curr_merchant.
  rewrite run_bind, run_lift, Hrow, run_bind.
  destruct row as [| [id0 q0] rest]; [contradiction |].
  cbn [map fst]. rewrite run_choice_accepted
    by (cbn [length] in *; rewrite length_map; exact Hp).
  cbn [length] in *. rewrite length_map.
  fold i. rewrite (nth_indep _ id0 0%Z) by (cbn [length]; rewrite length_map; apply Hi).
  destruct (filter _ (merchants mdl)); reflexivity.
Qed.

(** C7.  Let the merchant table have a row for the customer's currency that
    [choice] accepts, and let the generator keep the library's promises.
    [pick_curr_merchant] samples a position [i] of that row with positive
    probability; with [merchant_ID] the id at that position:
    (a) if some merchant of the registry has that id, the call returns a
    merchant of the registry whose [unique_id] is [merchant_ID];
    (b) if none has, the call raises [IndexError];
    (c) if every entry of the row with positive probability carries the id
    [only], and [m] is the one merchant of the registry with that id, the call
    returns [m]. *)
Theorem pick_curr_merchant_lookup (self : self_t) (mdl : model) (g : generator)
  (row : list (Z * Q)) :
  lawful_generator R ->
  loc (Params.merchant_per_currency (params self) (fraudster self)) (currency self)
    = Returns row ->
  row <> [] ->
  probabilities (length row) (map snd row) = true ->
  let i := fst (sample (Choice (length row) (Some (map snd row))) g) in
  let merchant_ID := nth i (map fst row) 0%Z in
  let outcome := fst (run (UniMausCustomer.pick_curr_merchant self mdl) g) in
  ((i < length row)%nat /\ 0 < nth i (map snd row) 0) /\
  ((exists m, In m (merchants mdl) /\ merchant_unique_id m = merchant_ID) ->
   exists m, outcome = Returns m /\ In m (merchants mdl) /\
             merchant_unique_id m = merchant_ID) /\
  ((forall m, In m (merchants mdl) -> merchant_unique_id m <> merchant_ID) ->
   outcome = Raises IndexError) /\
  (forall only m,
     (forall id q, In (id, q) row -> 0 < q -> id = only) ->
     In m (merchants mdl) -> merchant_unique_id m = only ->
     (forall m', In m' (merchants mdl) -> merchant_unique_id m' = only -> m' = m) ->
     outcome = Returns m).
Proof.
  intros HR Hrow Hne Hp i merchant_ID outcome.
  destruct (run_pick_curr_merchant self mdl g row HR Hrow Hne Hp) as [Hi Hout].
  fold i in Hi, Hout. fold merchant_ID outcome in Hout.
  pose proof (registry_lookup mdl merchant_ID) as Hreg.
  split; [exact Hi |].
  split; [| split].
  - intros [m [Hin Hid]]. rewrite Hout.
    destruct (filter _ (merchants mdl)) as [| m' rest].
    + exfalso. exact (Hreg m Hin Hid).
    + exists m'. split; [reflexivity | exact Hreg].
  - intro Hnone. rewrite Hout.
    destruct (filter _ (merchants mdl)) as [| m' rest]; [reflexivity |].
    exfalso. destruct Hreg as [Hin Hid]. exact (Hnone m' Hin Hid).
  - intros only m Honly Hin Hid Huniq.
    assert (Hsampled : merchant_ID = only).
    { destruct Hi as [Hlt Hpos]. apply (Honly merchant_ID (nth i (map snd row) 0)); [| exact Hpos].
      unfold merchant_ID.
      rewrite (nth_map_in fst row i (0%Z, 0)) by exact Hlt.
      rewrite (nth_map_in snd row i (0%Z, 0)) by exact Hlt.
      rewrite <- surjective_pairing. apply nth_In. exact Hlt. }
    rewrite Hout. destruct (filter _ (merchants mdl)) as [| m' rest].
    + exfalso. apply (Hreg m Hin). rewrite Hsampled. exact Hid.
    + destruct Hreg as [Hin' Hid']. f_equal. apply Huniq; [exact Hin' |].
      rewrite Hid'. exact Hsampled.
Qed.

Lemma pick_curr_merchant_returns (self : self_t) (mdl : model) (g g' : generator)
  (m : merchant) :
  run (UniMausCustomer.pick_curr_merchant self mdl) g = (Returns m, g') ->
  In m (merchants mdl).
Proof.
  unfold UniMausCustomer.pick_curr_merchant. intro H.
  apply run_bind_returns in H as (row & g0 & _ & H).
  apply run_bind_returns in H as (merchant_ID & g1 & _ & H).
  pose proof (registry_lookup mdl merchant_ID) as Hreg.
  destruct (filter _ (merchants mdl)) as [| m' rest]; [discriminate H |].
  cbn [run] in H. injection H as <- _. apply Hreg.
Qed.

(** C10.  Suppose [get_amount] hands back the customer it was given.  When
    [perform_transaction] returns, the customer differs from the one it was
    called on in [curr_merchant], now a merchant of the registry, and in
    [curr_amount] only: [num_transactions], [stay], [card_corrupted],
    [card_id], [country], [currency] and every other attribute are as they
    were. *)
Theorem perform_transaction_frame (self self' : self_t) (mdl : model) (g : generator) :
  (forall (m : merchant) (c c' : self_t) (h : generator) (amount : Q),
      fst (run (get_amount m c) h) = Returns (amount, c') -> c' = c) ->
  fst (run (UniMausCustomer.perform_transaction self mdl) g) = Returns self' ->
  (exists m amount,
      In m (merchants mdl) /\
      self' = set_curr_amount (Some amount) (set_curr_merchant (Some m) self)) /\
  num_transactions self' = num_transactions self /\
  stay self' = stay self /\
  card_corrupted self' = card_corrupted self /\
  card_id self' = card_id self /\
  country self' = country self /\
  currency self' = currency self /\
  unique_id self' = unique_id self /\
  fraudster self' = fraudster self /\
  params self' = params self /\
  noise_level self' = noise_level self /\
  avg_trans_per_hour self' = avg_trans_per_hour self /\
  trans_prob_month self' = trans_prob_month self /\
  trans_prob_monthday self' = trans_prob_monthday self /\
  trans_prob_weekday self' = trans_prob_weekday self /\
  trans_prob_hour self' = trans_prob_hour self.
Proof.
  intros Hpure Hrun.
  assert (Hshape : exists m amount,
             In m (merchants mdl) /\
             self' = set_curr_amount (Some amount) (set_curr_merchant (Some m) self)).
  { destruct (run (UniMausCustomer.perform_transaction self mdl) g) as [r g'] eqn:E.
    cbn [fst] in Hrun. subst r.
    unfold UniMausCustomer.perform_transaction in E.
    apply run_bind_returns in E as (m & g1 & Hm & E).
    apply run_bind_returns in E as ([amount c'] & g2 & Ha & E).
    cbn [run] in E. injection E as <- _.
    assert (Hc : c' = set_curr_merchant (Some m) self).
    { apply (Hpure m (set_curr_merchant (Some m) self) c' g1 amount).
      replace (run (get_amount m (set_curr_merchant (Some m) self)) g1)
        with (Returns (amount, c'), g2) by (symmetry; exact Ha).
      reflexivity. }
    subst c'. exists m, amount. split; [| reflexivity].
    exact (pick_curr_merchant_returns _ _ _ _ _ Hm). }
  split; [exact Hshape |].
  destruct Hshape as (m & amount & _ & ->). cbn. repeat split.
Qed.

End PurchaseClaims.

(** ** Card sourcing of the fraudster *)

Section CardClaims.
Context {W : World} {R : RandomState}.

(** The three constraints on a victim, in the specification's words: a
    country with a fraud fraction other than zero, a currency of the fraud
    tables, and at least one transaction made. *)
Definition victim_constraints (tables : Params.t) (c : self_t) : bool :=
  UniMausFraudulentCustomer.label_in (country c)
    (UniMausFraudulentCustomer.fraudster_countries tables)
  && UniMausFraudulentCustomer.label_in (currency c)
       (UniMausFraudulentCustomer.fraudster_currencies tables)
  && (0 <? num_transactions c)%Z.

Lemma unique_id_injective (l : list self_t) (x y : self_t) :
  NoDup (map unique_id l) -> In x l -> In y l -> unique_id x = unique_id y -> x = y.
Proof.
  induction l as [| c l IH]; cbn [map In]; intros Hnd Hx Hy Heq.
  - contradiction.
  - inversion Hnd as [| ? ? Hnotin Hnd']; subst.
    destruct Hx as [-> | Hx], Hy as [-> | Hy].
    + reflexivity.
    + exfalso. apply Hnotin. rewrite Heq. apply in_map. exact Hy.
    + exfalso. apply Hnotin. rewrite <- Heq. apply in_map. exact Hx.
    + apply IH; assumption.
Qed.

Lemma id_in_active (mdl : model) (c : self_t) :
  UniMausFraudulentCustomer.id_in (unique_id c)
    (UniMausFraudulentCustomer.customers_active_ids mdl) = true <->
  exists c', In c' (customers mdl) /\ (0 < num_transactions c')%Z /\
             unique_id c' = unique_id c.
Proof.
  unfold UniMausFraudulentCustomer.id_in, UniMausFraudulentCustomer.customers_active_ids.
  rewrite existsb_exists. split.
  - intros [x [Hx Heq]]. apply Z.eqb_eq in Heq. subst x.
    apply in_map_iff in Hx as [c' [Hid Hc']]. apply filter_In in Hc' as [Hin Hact].
    exists c'. split; [exact Hin |]. split; [apply Z.ltb_lt; exact Hact | exact Hid].
  - intros [c' [Hin [Hact Hid]]]. exists (unique_id c). split; [| apply Z.eqb_refl].
    rewrite <- Hid. apply in_map. apply filter_In.
    split; [exact Hin | apply Z.ltb_lt; exact Hact].
Qed.

(** With ids that identify the customers, the list the code filters is the
    list of customers that meet the three constraints. *)
Lemma targets_victims (self : self_t) (mdl : model) :
  NoDup (map unique_id (customers mdl)) ->
  UniMausFraudulentCustomer.targets self mdl
  = filter (victim_constraints (params self)) (customers mdl).
Proof.
  intro Hnd. unfold UniMausFraudulentCustomer.targets.
  apply filter_ext_in. intros c Hc. unfold victim_constraints. f_equal.
  destruct (0 <? num_transactions c)%Z eqn:E.
  - apply id_in_active. exists c. split; [exact Hc |].
    split; [apply Z.ltb_lt; exact E | reflexivity].
  - destruct (UniMausFraudulentCustomer.id_in _ _) eqn:F; [| reflexivity].
    apply id_in_active in F as [c' [Hin [Hact Hid]]].
    assert (c' = c) by (apply (unique_id_injective _ _ _ Hnd Hin Hc Hid)).
    subst c'. apply Z.ltb_ge in E. lia.
Qed.

Lemma run_base_initialise_card_id (self : self_t) (mdl : model) (g : generator) :
  run (UniMausCustomer.initialise_card_id self mdl) g
  = (Returns (fst (get_next_card_id mdl), self, snd (get_next_card_id mdl)), g).
Proof.
  unfold UniMausCustomer.initialise_card_id.
  destruct (get_next_card_id mdl) as [card mdl']. reflexivity.
Qed.

(** C6.  Let the customers of the model have pairwise different ids.  When
    no customer meets the three victim constraints, the fraudster's
    [initialise_card_id] raises nothing: whatever the generator answers, it
    returns what the base class's [initialise_card_id] returns, namely the
    card id that [get_next_card_id] hands out, and the fraudster itself is
    unchanged, so its country and currency are those drawn before. *)
Theorem fraud_initialise_card_id_fallback (self : self_t) (mdl : model) (g : generator) :
  NoDup (map unique_id (customers mdl)) ->
  filter (victim_constraints (params self)) (customers mdl) = [] ->
  let outcome := fst (run (UniMausFraudulentCustomer.initialise_card_id self mdl) g) in
  outcome = fst (run (UniMausCustomer.initialise_card_id self mdl)
                   (snd (sample (Uniform 0 1) g))) /\
  outcome = Returns (fst (get_next_card_id mdl), self, snd (get_next_card_id mdl)) /\
  (forall card self' mdl', outcome = Returns (card, self', mdl') ->
     card = fst (get_next_card_id mdl) /\
     country self' = country self /\ currency self' = currency self).
Proof.
  intros Hnd Hnone outcome.
  assert (Hout : outcome
                 = Returns (fst (get_next_card_id mdl), self, snd (get_next_card_id mdl))).
  { unfold outcome, UniMausFraudulentCustomer.initialise_card_id.
    rewrite run_bind, run_uniform.
    destruct (Qltb _ _).
    - rewrite run_try_except, (targets_victims _ _ Hnd), Hnone.
      cbn [choice bind run exn_eqb]. rewrite run_base_initialise_card_id. reflexivity.
    - rewrite run_base_initialise_card_id. reflexivity. }
  split; [rewrite run_base_initialise_card_id; exact Hout |].
  split; [exact Hout |].
  intros card self' mdl' E. rewrite Hout in E. injection E as <- <- <-.
  repeat split.
Qed.

(** C9, as the code has it.  When the first uniform draw is below
    [fraud_cards_in_genuine] and the list of targets is not empty, the
    fraudster adopts the card id, country and currency of a victim that is a
    member of [model.customers], lives in a country with a fraud fraction
    other than zero, pays in a currency of the fraud tables, and whose id is
    the id of a customer with at least one transaction.  The victim itself
    has made a transaction when ids identify the customers, and it is a
    genuine customer when every member of [model.customers] is; the method
    itself does not look at the victim's fraud flag. *)
Theorem fraud_initialise_card_id_victim (self : self_t) (mdl : model) (g : generator) :
  fst (sample (Uniform 0 1) g) < Params.fraud_cards_in_genuine (params self) ->
  UniMausFraudulentCustomer.targets self mdl <> [] ->
  exists victim,
    fst (run (UniMausFraudulentCustomer.initialise_card_id self mdl) g)
    = Returns (card_id victim,
               set_currency (currency victim) (set_country (country victim) self),
               mdl) /\
    In victim (customers mdl) /\
    UniMausFraudulentCustomer.label_in (country victim)
      (UniMausFraudulentCustomer.fraudster_countries (params self)) = true /\
    UniMausFraudulentCustomer.label_in (currency victim)
      (UniMausFraudulentCustomer.fraudster_currencies (params self)) = true /\
    UniMausFraudulentCustomer.id_in (unique_id victim)
      (UniMausFraudulentCustomer.customers_active_ids mdl) = true /\
    (NoDup (map unique_id (customers mdl)) -> (0 < num_transactions victim)%Z) /\
    ((forall c, In c (customers mdl) -> fraudster c = false) -> fraudster victim = false).
Proof.
  intros Hu Hne.
  destruct (UniMausFraudulentCustomer.targets self mdl) as [| c0 rest] eqn:Et;
    [contradiction |].
  set (victim := nth (fst (sample (Choice (length (c0 :: rest)) None)
                             (snd (sample (Uniform 0 1) g)))) (c0 :: rest) c0).
  assert (Hin : In victim (UniMausFraudulentCustomer.targets self mdl)).
  { rewrite Et. unfold victim.
    destruct (nth_in_or_default
                (fst (sample (Choice (length (c0 :: rest)) None)
                        (snd (sample (Uniform 0 1) g)))) (c0 :: rest) c0) as [H | ->].
    - exact H.
    - left. reflexivity. }
  exists victim. split.
  { unfold UniMausFraudulentCustomer.initialise_card_id.
    rewrite run_bind, run_uniform.
    apply Qltb_lt in Hu. rewrite Hu.
    rewrite run_try_except, run_bind, Et, (run_choice_accepted c0 rest None _ I).
    reflexivity. }
  pose proof Hin as Hf. unfold UniMausFraudulentCustomer.targets in Hf.
  apply filter_In in Hf as [Hmem Hc].
  apply andb_true_iff in Hc as [Hc Hid]. apply andb_true_iff in Hc as [Hco Hcu].
  split; [exact Hmem |]. split; [exact Hco |]. split; [exact Hcu |].
  split; [exact Hid |]. split.
  - intro Hnd. rewrite (targets_victims _ _ Hnd) in Hin.
    apply filter_In in Hin as [_ Hv]. unfold victim_constraints in Hv.
    apply andb_true_iff in Hv as [_ Hv]. apply Z.ltb_lt. exact Hv.
  - intro Hgen. apply Hgen. exact Hmem.
Qed.

End CardClaims.

(** * Executions

    The theorems above, applied in the small world of [Fixture] under the
    replaying generator, and the executions that separate the code from the
    specification's wording. *)

Section Executions.
Import Fixture.

(** C1 at midnight of Monday 1 January 2018, for [alice] and for a customer
    built without noise. *)
Lemma get_curr_transaction_prob_product_witness :
  UniMausCustomer.get_curr_transaction_prob (W := world) alice (town [alice]) =
  Returns (avg_trans_per_hour alice
           * (12 * entry (trans_prob_month alice) (1 - 1))
           * (24 * entry (trans_prob_hour alice) 0)
           * (30.5 * entry (trans_prob_monthday alice) (1 - 1))
           * (7 * entry (trans_prob_weekday alice) 0))
  /\
  exists self,
    fst (run (R := Replay.random_state) (UniMausCustomer.__init__ (W := world) quiet) []) = Returns self /\
    undisturbed (Params.frac_month quiet_tables false) (trans_prob_month self) /\
    undisturbed (Params.frac_monthday quiet_tables false) (trans_prob_monthday self) /\
    undisturbed (Params.frac_weekday quiet_tables false) (trans_prob_weekday self) /\
    undisturbed (Params.frac_hour quiet_tables false) (trans_prob_hour self) /\
    avg_trans_per_hour self == 1 / 366 / 24 * (1 # 2) /\
    UniMausCustomer.get_curr_transaction_prob (W := world) self (town [alice]) =
    Returns (avg_trans_per_hour self
             * (12 * entry (trans_prob_month self) 0)
             * (24 * entry (trans_prob_hour self) 0)
             * (30.5 * entry (trans_prob_monthday self) 0)
             * (7 * entry (trans_prob_weekday self) 0)).
Proof.
  destruct (@get_curr_transaction_prob_product Fixture.world Replay.random_state)
    as [Ha Hb].
  split.
  - apply (Ha alice (town [alice]) new_year 1%Z 1%Z 0%Z 0%Z);
      first [ vm_compute; reflexivity
            | split; vm_compute; first [reflexivity | discriminate] ].
  - let r := eval vm_compute in
          (fst (run (R := Replay.random_state) (UniMausCustomer.__init__ (W := world) quiet) [])) in
    match r with Returns ?c => exists c end.
    split; [vm_compute; reflexivity |].
    apply (Hb quiet _ [] (town [alice]) new_year Replay_lawful);
      vm_compute; reflexivity.
Defined.

(** C2 for [bob] built with the noise value -1 on the tape. *)
Lemma init_curves_and_rate_nonneg_witness :
  exists self,
    fst (run (R := Replay.random_state) (UniMausCustomer.__init__ (W := world) bob) [-1]) = Returns self /\
    (length (trans_prob_month self) = 12%nat /\ nonneg (trans_prob_month self)) /\
    (length (trans_prob_monthday self) = 31%nat /\ nonneg (trans_prob_monthday self)) /\
    (length (trans_prob_weekday self) = 7%nat /\ nonneg (trans_prob_weekday self)) /\
    (length (trans_prob_hour self) = 24%nat /\ nonneg (trans_prob_hour self)) /\
    (0 <= Params.trans_per_year (params bob) (fraudster bob) ->
     0 <= Params.transaction_motivation (params bob) (fraudster bob) ->
     0 <= avg_trans_per_hour self).
Proof.
  let r := eval vm_compute in
        (fst (run (R := Replay.random_state) (UniMausCustomer.__init__ (W := world) bob) [-1])) in
  match r with Returns ?c => exists c end.
  split; [vm_compute; reflexivity |].
  apply (init_curves_and_rate_nonneg (W := world) (R := Replay.random_state)
           bob _ [-1] Replay_lawful).
  left. vm_compute. reflexivity.
Defined.

(** C3, as the code has it, for [alice] at noise level 1. *)
Lemma initialise_transaction_probabilities_draws_witness :
  exists curves,
    fst (run (R := Replay.random_state)
           (UniMausCustomer.initialise_transaction_probabilities (W := world) alice) [])
    = Returns curves /\
    exists c1 c2 c3 c4 v1 v2 v3 v4 g1 g2 g3,
      let r1 := MultivariateNormal (Params.frac_month tables false) c1 in
      let r2 := MultivariateNormal (Params.frac_monthday tables false) c2 in
      let r3 := MultivariateNormal (Params.frac_weekday tables false) c3 in
      let r4 := MultivariateNormal (Params.frac_hour tables false) c4 in
      requests (R := Replay.random_state)
        (UniMausCustomer.initialise_transaction_probabilities (W := world) alice) []
      = [r1; r2; r3; r4] /\
      isotropic 12 (noise_level alice / 1200) c1 /\
      isotropic 31 (noise_level alice / 305) c2 /\
      isotropic 7 (noise_level alice / 70) c3 /\
      isotropic 24 (noise_level alice / 240) c4 /\
      sample (RandomState := Replay.random_state) r1 [] = (v1, g1) /\
      sample (RandomState := Replay.random_state) r2 g1 = (v2, g2) /\
      sample (RandomState := Replay.random_state) r3 g2 = (v3, g3) /\
      fst (sample (RandomState := Replay.random_state) r4 g3) = v4 /\
      curves = (clamp_negative v1, clamp_negative v2, clamp_negative v3, clamp_negative v4).
Proof.
  eexists. split; [reflexivity |].
  apply (initialise_transaction_probabilities_draws
           (W := world) (R := Replay.random_state) alice []).
  reflexivity.
Defined.

(** The covariances requested for the day of the month, the weekday and the
    hour are not [noise_level / (100 * dimension_size)]. *)
Lemma spec_covariance_refuted :
  requests (R := Replay.random_state)
    (UniMausCustomer.initialise_transaction_probabilities (W := world) alice) []
  = [MultivariateNormal (Params.frac_month tables false)
       (mat_div (mat_mul (eye 12) 1) 1200);
     MultivariateNormal (Params.frac_monthday tables false)
       (mat_div (mat_mul (eye 31) 1) 305);
     MultivariateNormal (Params.frac_weekday tables false)
       (mat_div (mat_mul (eye 7) 1) 70);
     MultivariateNormal (Params.frac_hour tables false)
       (mat_div (mat_mul (eye 24) 1) 240)] /\
  noise_level alice = 1 /\
  ~ isotropic 31 (spec_covariance 1 31) (mat_div (mat_mul (eye 31) 1) 305) /\
  ~ isotropic 7 (spec_covariance 1 7) (mat_div (mat_mul (eye 7) 1) 70) /\
  ~ isotropic 24 (spec_covariance 1 24) (mat_div (mat_mul (eye 24) 1) 240).
Proof.
  split; [reflexivity |]. split; [reflexivity |].
  repeat split; intros [_ H];
    specialize (H 0%nat 0%nat ltac:(lia) ltac:(lia));
    vm_compute in H; discriminate H.
Qed.

(** C4, as the code has it, for the defrauded [alice] and the draws 1/4, 1/2. *)
Lemma genuine_decide_making_transaction_witness :
  run (R := Replay.random_state)
    (UniMausCustomer.decide_making_transaction (W := world) alice_defrauded (town [alice]))
    [1 # 4; 1 # 2]
  = (Returns true, [1 # 2]) /\
  let u := fst (sample (RandomState := Replay.random_state) (Uniform 0 1) [1 # 2]) in
  let leave_after_fraud := Qltb u (1 - Params.stay_after_fraud tables) in
  let outcome :=
    fst (run (R := Replay.random_state)
           (UniMausGenuineCustomer.decide_making_transaction (W := world)
              alice_defrauded (town [alice])) [1 # 4; 1 # 2]) in
  requests (R := Replay.random_state)
    (UniMausGenuineCustomer.decide_making_transaction (W := world)
       alice_defrauded (town [alice])) [1 # 4; 1 # 2]
  = [Uniform 0 1; Uniform 0 1] /\
  (leave_after_fraud = true <-> u < 1 - Params.stay_after_fraud tables) /\
  (true = true -> card_corrupted alice_defrauded = true -> leave_after_fraud = true ->
   outcome = Returns (false, set_stay false alice_defrauded)) /\
  (true = false \/ card_corrupted alice_defrauded = false \/ leave_after_fraud = false ->
   outcome = Returns (true, alice_defrauded)) /\
  (true = true -> card_corrupted alice_defrauded = true ->
   Params.stay_after_fraud tables == 0 ->
   outcome = Returns (false, set_stay false alice_defrauded)) /\
  (forall b self', outcome = Returns (b, self') ->
     stay alice_defrauded = false -> stay self' = false).
Proof.
  split; [vm_compute; reflexivity |].
  apply (genuine_decide_making_transaction (W := world) (R := Replay.random_state)
           alice_defrauded (town [alice]) [1 # 4; 1 # 2] [1 # 2] true Replay_lawful).
  vm_compute. reflexivity.
Defined.

(** The second uniform draw is made although the card is not corrupted, and
    although the base decision is negative. *)
Lemma genuine_decide_always_draws :
  card_corrupted alice = false /\
  run (R := Replay.random_state)
    (UniMausCustomer.decide_making_transaction (W := world) alice (town [alice]))
    [1 # 4; 1 # 2; 3 # 4]
  = (Returns true, [1 # 2; 3 # 4]) /\
  requests (R := Replay.random_state)
    (UniMausGenuineCustomer.decide_making_transaction (W := world) alice (town [alice]))
    [1 # 4; 1 # 2; 3 # 4]
  = [Uniform 0 1; Uniform 0 1] /\
  snd (run (R := Replay.random_state)
         (UniMausGenuineCustomer.decide_making_transaction (W := world) alice (town [alice]))
         [1 # 4; 1 # 2; 3 # 4])
  = [3 # 4] /\
  run (R := Replay.random_state)
    (UniMausCustomer.decide_making_transaction (W := world) alice_defrauded (town [alice]))
    [3 # 4; 1 # 2; 1 # 4]
  = (Returns false, [1 # 2; 1 # 4]) /\
  requests (R := Replay.random_state)
    (UniMausGenuineCustomer.decide_making_transaction (W := world)
       alice_defrauded (town [alice]))
    [3 # 4; 1 # 2; 1 # 4]
  = [Uniform 0 1; Uniform 0 1].
Proof.
  repeat split; vm_compute; reflexivity.
Qed.

(** C5 for [alice] and the draw 1/4. *)
Lemma decide_making_transaction_threshold_witness :
  let u := fst (sample (RandomState := Replay.random_state) (Uniform 0 1) [1 # 4]) in
  let decision :=
    fst (run (R := Replay.random_state)
           (UniMausCustomer.decide_making_transaction (W := world) alice (town [alice]))
           [1 # 4]) in
  (forall p,
     UniMausCustomer.get_curr_transaction_prob (W := world) alice (town [alice]) = Returns p ->
     requests (R := Replay.random_state)
       (UniMausCustomer.decide_making_transaction (W := world) alice (town [alice])) [1 # 4]
     = [Uniform 0 1] /\
     0 <= u /\ u < 1 /\
     (decision = Returns true <-> u < p) /\
     (decision = Returns false <-> p <= u))
  /\
  (forall dt m h d w,
     UniMausCustomer.get_local_datetime (W := world) alice (town [alice]) = Returns dt ->
     getitem (trans_prob_month alice) (month dt - 1) = Returns m ->
     getitem (trans_prob_hour alice) (hour dt) = Returns h ->
     getitem (trans_prob_monthday alice) (day dt - 1) = Returns d ->
     getitem (trans_prob_weekday alice) (weekday dt) = Returns w ->
     m == 0 -> h == 0 -> d == 0 -> w == 0 ->
     decision = Returns false).
Proof.
  exact (decide_making_transaction_threshold (W := world) (R := Replay.random_state)
           alice (town [alice]) [1 # 4] Replay_lawful).
Defined.

(** C6 for [eve] in a town whose one customer has made no transaction. *)
Lemma fraud_initialise_card_id_fallback_witness :
  NoDup (map unique_id (customers (World := world) (town [bob]))) /\
  filter (victim_constraints (W := world) (params eve)) (customers (World := world) (town [bob]))
  = [] /\
  let outcome :=
    fst (run (R := Replay.random_state)
           (UniMausFraudulentCustomer.initialise_card_id (W := world) eve (town [bob]))
           [1 # 4]) in
  outcome
  = fst (run (R := Replay.random_state)
           (UniMausCustomer.initialise_card_id (W := world) eve (town [bob]))
           (snd (sample (RandomState := Replay.random_state) (Uniform 0 1) [1 # 4]))) /\
  outcome = Returns (fst (get_next_card_id (World := world) (town [bob])), eve,
                     snd (get_next_card_id (World := world) (town [bob]))) /\
  (forall card self' mdl', outcome = Returns (card, self', mdl') ->
     card = fst (get_next_card_id (World := world) (town [bob])) /\
     country self' = country eve /\ currency self' = currency eve).
Proof.
  assert (Hnd : NoDup (map unique_id (customers (World := world) (town [bob])))).
  { repeat constructor. intros []. }
  assert (Hnone : filter (victim_constraints (W := world) (params eve))
                    (customers (World := world) (town [bob])) = [])
    by (vm_compute; reflexivity).
  split; [exact Hnd |]. split; [exact Hnone |].
  exact (fraud_initialise_card_id_fallback (W := world) (R := Replay.random_state)
           eve (town [bob]) [1 # 4] Hnd Hnone).
Defined.

(** C7 for [alice], whose currency has merchant 8 at probability one. *)
Lemma pick_curr_merchant_lookup_witness :
  let row := [(7%Z, 0); (8%Z, 1); (9%Z, 0)] in
  let mdl := town [alice] in
  loc (Params.merchant_per_currency (params alice) (fraudster alice)) (currency alice)
  = Returns row /\
  probabilities (length row) (map snd row) = true /\
  let i := fst (sample (RandomState := Replay.random_state)
                  (Choice (length row) (Some (map snd row))) [5]) in
  let merchant_ID := nth i (map fst row) 0%Z in
  let outcome :=
    fst (run (R := Replay.random_state)
           (UniMausCustomer.pick_curr_merchant (W := world) alice mdl) [5]) in
  ((i < length row)%nat /\ 0 < nth i (map snd row) 0) /\
  ((exists m, In m (merchants (World := world) mdl) /\
              merchant_unique_id (World := world) m = merchant_ID) ->
   exists m, outcome = Returns m /\ In m (merchants (World := world) mdl) /\
             merchant_unique_id (World := world) m = merchant_ID) /\
  ((forall m, In m (merchants (World := world) mdl) ->
              merchant_unique_id (World := world) m <> merchant_ID) ->
   outcome = Raises IndexError) /\
  (forall only m,
     (forall id q, In (id, q) row -> 0 < q -> id = only) ->
     In m (merchants (World := world) mdl) ->
     merchant_unique_id (World := world) m = only ->
     (forall m', In m' (merchants (World := world) mdl) ->
                 merchant_unique_id (World := world) m' = only -> m' = m) ->
     outcome = Returns m).
Proof.
  cbv zeta. split; [vm_compute; reflexivity |]. split; [vm_compute; reflexivity |].
  apply (pick_curr_merchant_lookup (W := world) (R := Replay.random_state)
           alice (town [alice]) [5] [(7%Z, 0); (8%Z, 1); (9%Z, 0)] Replay_lawful).
  - vm_compute. reflexivity.
  - discriminate.
  - vm_compute. reflexivity.
Defined.

(** C8, as the code has it, for [bob] and the noise value -1. *)
Lemma init_rate_rejects_nonpositive_witness :
  exists self,
    fst (run (R := Replay.random_state) (UniMausCustomer.__init__ (W := world) bob) [-1])
    = Returns self /\
    let b := Params.trans_per_year tables false in
    let mot := Params.transaction_motivation tables false in
    let noise := Normal 0 (Params.noise_level tables * b) in
    let a := fst (sample (RandomState := Replay.random_state) noise [-1]) in
    hd_error (requests (R := Replay.random_state) (UniMausCustomer.__init__ (W := world) bob) [-1])
    = Some noise /\
    (0 < b + a -> avg_trans_per_hour self == (b + a) / (366 * 24) * mot) /\
    (b + a <= 0 -> avg_trans_per_hour self == b / (366 * 24) * mot).
Proof.
  let r := eval vm_compute in
        (fst (run (R := Replay.random_state) (UniMausCustomer.__init__ (W := world) bob) [-1])) in
  match r with Returns ?c => exists c end.
  split; [vm_compute; reflexivity |].
  apply (init_rate_rejects_nonpositive (W := world) (R := Replay.random_state) bob _ [-1]).
  vm_compute. reflexivity.
Defined.

(** With a yearly count of 1 and a noise value of -1 the sum is zero, which
    is not negative; the rate stays 1 and is not the sum. *)
Lemma init_rate_zero_sum_refuted :
  exists self,
    let b := Params.trans_per_year tables false in
    let mot := Params.transaction_motivation tables false in
    let a := fst (sample (RandomState := Replay.random_state)
                    (Normal 0 (Params.noise_level tables * b)) [-1]) in
    fst (run (R := Replay.random_state) (UniMausCustomer.__init__ (W := world) bob) [-1])
    = Returns self /\
    0 < b /\ a == -1 /\ 0 <= b + a /\
    avg_trans_per_hour self == b / (366 * 24) * mot /\
    ~ avg_trans_per_hour self == (b + a) / (366 * 24) * mot.
Proof.
  let r := eval vm_compute in
        (fst (run (R := Replay.random_state) (UniMausCustomer.__init__ (W := world) bob) [-1])) in
  match r with Returns ?c => exists c end.
  cbv zeta. split; [vm_compute; reflexivity |].
  split; [vm_compute; reflexivity |].
  split; [vm_compute; reflexivity |].
  split; [vm_compute; discriminate |].
  split; [vm_compute; reflexivity |].
  vm_compute. discriminate.
Qed.

(** C9, as the code has it, for [eve] in a town of genuine customers. *)
Lemma fraud_initialise_card_id_victim_witness :
  let mdl := town [alice; bob] in
  fst (sample (RandomState := Replay.random_state) (Uniform 0 1) [1 # 4; 0])
  < Params.fraud_cards_in_genuine (params eve) /\
  exists victim,
    fst (run (R := Replay.random_state)
           (UniMausFraudulentCustomer.initialise_card_id (W := world) eve mdl) [1 # 4; 0])
    = Returns (card_id victim,
               set_currency (currency victim) (set_country (country victim) eve),
               mdl) /\
    In victim (customers (World := world) mdl) /\
    UniMausFraudulentCustomer.label_in (country victim)
      (UniMausFraudulentCustomer.fraudster_countries (params eve)) = true /\
    UniMausFraudulentCustomer.label_in (currency victim)
      (UniMausFraudulentCustomer.fraudster_currencies (params eve)) = true /\
    UniMausFraudulentCustomer.id_in (unique_id victim)
      (UniMausFraudulentCustomer.customers_active_ids (W := world) mdl) = true /\
    (NoDup (map unique_id (customers (World := world) mdl)) ->
     (0 < num_transactions victim)%Z) /\
    ((forall c, In c (customers (World := world) mdl) -> fraudster c = false) ->
     fraudster victim = false).
Proof.
  cbv zeta.
  assert (Hu : fst (sample (RandomState := Replay.random_state) (Uniform 0 1) [1 # 4; 0])
               < Params.fraud_cards_in_genuine (params eve))
    by (vm_compute; reflexivity).
  split; [exact Hu |].
  apply (fraud_initialise_card_id_victim (W := world) (R := Replay.random_state)
           eve (town [alice; bob]) [1 # 4; 0] Hu).
  vm_compute. discriminate.
Defined.

(** A registry that holds a fraudster with a transaction: the fraudster under
    construction adopts that fraudster's card. *)
Lemma fraud_victim_may_be_fraudster :
  let mdl := town [bob; mallory] in
  NoDup (map unique_id (customers (World := world) mdl)) /\
  fst (run (R := Replay.random_state)
         (UniMausFraudulentCustomer.initialise_card_id (W := world) eve mdl) [1 # 4; 0])
  = Returns (card_id mallory,
             set_currency (currency mallory) (set_country (country mallory) eve),
             mdl) /\
  In mallory (customers (World := world) mdl) /\
  (0 < num_transactions mallory)%Z /\
  fraudster mallory = true.
Proof.
  cbv zeta. split.
  - cbn. repeat constructor; cbn; intuition discriminate.
  - repeat split; try (vm_compute; reflexivity). right. left. reflexivity.
Qed.

(** C10 for [alice], who buys from merchant 8 at the price 10. *)
Lemma perform_transaction_frame_witness :
  exists self',
    fst (run (R := Replay.random_state)
           (UniMausCustomer.perform_transaction (W := world) alice (town [alice])) [5])
    = Returns self' /\
    (exists m amount,
        In m (merchants (World := world) (town [alice])) /\
        self' = set_curr_amount (Some amount) (set_curr_merchant (Some m) alice)) /\
    num_transactions self' = num_transactions alice /\
    stay self' = stay alice /\
    card_corrupted self' = card_corrupted alice /\
    card_id self' = card_id alice /\
    country self' = country alice /\
    currency self' = currency alice /\
    unique_id self' = unique_id alice /\
    fraudster self' = fraudster alice /\
    params self' = params alice /\
    noise_level self' = noise_level alice /\
    avg_trans_per_hour self' = avg_trans_per_hour alice /\
    trans_prob_month self' = trans_prob_month alice /\
    trans_prob_monthday self' = trans_prob_monthday alice /\
    trans_prob_weekday self' = trans_prob_weekday alice /\
    trans_prob_hour self' = trans_prob_hour alice.
Proof.
  exists (set_curr_amount (Some 10) (set_curr_merchant (Some (8%Z, 10)) alice)).
  assert (Hrun : fst (run (R := Replay.random_state)
                        (UniMausCustomer.perform_transaction (W := world) alice (town [alice]))
                        [5])
                 = Returns (set_curr_amount (Some 10)
                              (set_curr_merchant (Some (8%Z, 10)) alice)))
    by (vm_compute; reflexivity).
  split; [exact Hrun |].
  apply (perform_transaction_frame (W := world) (R := Replay.random_state)
           alice _ (town [alice]) [5]); [| exact Hrun].
  intros m c c' h amount H. cbn in H. injection H as _ H. symmetry. exact H.
Defined.

End Executions.

(** * Further properties of the customer classes *)

(** ** Which exceptions a tree can raise *)

(** [failures m P]: every exception [m] can raise, whatever the generator
    answers, satisfies [P]. *)
Fixpoint failures {A : Type} (m : rand A) (P : exn -> Prop) : Prop :=
  match m with
  | Ret _ => True
  | Raise e => P e
  | Sample d k => forall x : response d, failures (k x) P
  end.


Lemma failures_try_except {A : Type} (m : rand A) (e : exn) (h : rand A)
  (P : exn -> Prop) :
  failures m (fun e' => e' = e \/ P e') -> failures h P ->
  failures (try_except m e h) P.
Proof.
  intros Hm Hh. induction m as [a | e' | d k IH]; cbn [try_except failures] in *.
  - exact I.
  - destruct Hm as [-> | Hm].
    + replace (exn_eqb e e) with true by (destruct e; reflexivity). exact Hh.
    + destruct (exn_eqb e e'); [exact Hh | exact Hm].
  - intro x. apply IH. apply Hm.
Qed.





(** ** The square matrices of [initialise_transaction_probabilities] *)

Lemma mat_square (n : nat) (x d : Q) :
  forallb (fun row => Nat.eqb (length row) (length (mat_div (mat_mul (eye n) x) d)))
    (mat_div (mat_mul (eye n) x) d) = true.
Proof.
  rewrite mat_length. apply forallb_forall. intros row Hrow.
  unfold mat_div, mat_mul, eye in Hrow.
  apply in_map_iff in Hrow as [row1 [<- Hrow]].
  apply in_map_iff in Hrow as [row0 [<- Hrow]].
  apply in_map_iff in Hrow as [i [<- _]].
  rewrite !length_map, length_seq. apply Nat.eqb_refl.
Qed.

Section CheckedDraws.
Context {R : RandomState}.


Lemma requests_multivariate_normal_mat (mean : list Q) (n : nat) (x d : Q) (g : generator) :
  let cov := mat_div (mat_mul (eye n) x) d in
  requests (multivariate_normal mean cov) g =
  if Nat.eqb (length mean) n then [MultivariateNormal mean cov] else [].
Proof.
  cbv zeta. unfold multivariate_normal. rewrite mat_square, mat_length.
  destruct (Nat.eqb (length mean) n); reflexivity.
Qed.

End CheckedDraws.

(** ** The constructor as a whole *)

Section ConstructorProperties.
Context {W : World} {R : RandomState}.

Lemma normal_returns (loc scale : Q) (g g' : generator) (a : Q) :
  run (normal loc scale) g = (Returns a, g') -> 0 <= scale.
Proof.
  unfold normal. destruct (Qltb scale 0) eqn:E; cbn [run]; intro H.
  - discriminate H.
  - apply Qltb_ge. exact E.
Qed.




(** The constructor's steps, for a run that returns. *)
Lemma init_returns_inv (self0 self : self_t) (g g' : generator) :
  run (UniMausCustomer.__init__ self0) g = (Returns self, g') ->
  let b := Params.trans_per_year (params self0) (fraudster self0) in
  let noise := Normal 0 (Params.noise_level (params self0) * b) in
  exists avg curves g2,
    0 <= Params.noise_level (params self0) * b /\
    let self1 := set_avg_trans_per_hour avg
                   (set_noise_level (Params.noise_level (params self0)) self0) in
    run (UniMausCustomer.initialise_transaction_probabilities self1) (snd (sample noise g))
    = (Returns curves, g2) /\
    requests (UniMausCustomer.__init__ self0) g
    = noise :: requests (UniMausCustomer.initialise_transaction_probabilities self1)
                 (snd (sample noise g)) /\
    self = set_trans_prob curves self1.
Proof.
  unfold UniMausCustomer.__init__. intro H. cbv zeta.
  apply run_bind_returns in H as (a & g1 & Ha & H).
  pose proof (normal_returns _ _ _ _ _ Ha) as Hscale.
  pose proof (run_normal _ _ _ _ _ Ha) as (T & -> & ->).
  pose proof H as H'.
  apply run_bind_returns in H as (curves & g2 & Hc & H).
  cbn [run] in H. injection H as <- _.
  eexists. exists curves, g2.
  split; [exact Hscale |]. split; [exact Hc |]. split.
  - rewrite requests_bind, T, Ha. cbn [app]. f_equal.
    rewrite requests_bind, Hc. cbn [requests]. apply app_nil_r.
  - reflexivity.
Qed.



(** The constructor assigns [noise_level], [avg_trans_per_hour] and the four
    curves and nothing else: identity, tables, class, country, currency,
    card, [stay], the transaction counter, the current purchase and
    [card_corrupted] are as the base class left them. *)
Theorem init_frame (self0 self : self_t) (g : generator) :
  fst (run (UniMausCustomer.__init__ self0) g) = Returns self ->
  noise_level self = Params.noise_level (params self0) /\
  unique_id self = unique_id self0 /\
  params self = params self0 /\
  fraudster self = fraudster self0 /\
  country self = country self0 /\
  currency self = currency self0 /\
  card_id self = card_id self0 /\
  stay self = stay self0 /\
  num_transactions self = num_transactions self0 /\
  curr_merchant self = curr_merchant self0 /\
  curr_amount self = curr_amount self0 /\
  card_corrupted self = card_corrupted self0.
Proof.
  destruct (run (UniMausCustomer.__init__ self0) g) as [r g'] eqn:E.
  cbn [fst]. intros ->.
  destruct (init_returns_inv _ _ _ _ E) as (avg & curves & g2 & _ & _ & _ & ->).
  destruct curves as [[[mo md] wd] ho]. cbn. repeat split.
Qed.

End ConstructorProperties.

(** ** The probability and the decisions *)

Lemma nonneg_entry (curve : list Q) (i : Z) : nonneg curve -> 0 <= entry curve i.
Proof.
  intro H. unfold entry.
  destruct (Nat.lt_ge_cases (Z.to_nat i) (length curve)) as [Hlt | Hge].
  - unfold nonneg in H. rewrite Forall_forall in H. apply H. apply nth_In. exact Hlt.
  - rewrite nth_overflow by exact Hge. apply Qle_refl.
Qed.

Lemma getitem_raises {A : Type} (a : list A) (i : Z) (e : exn) :
  getitem a i = Raises e -> e = IndexError.
Proof.
  unfold getitem.
  destruct ((0 <=? (if (i <? 0)%Z then (i + Z.of_nat (length a))%Z else i))%Z
            && ((if (i <? 0)%Z then (i + Z.of_nat (length a))%Z else i)
                <? Z.of_nat (length a))%Z).
  - destruct (nth_error a _); intro H; [discriminate H | injection H as <-; reflexivity].
  - intro H. injection H as <-. reflexivity.
Qed.

Section DecisionProperties.
Context {W : World} {R : RandomState}.

(** For a customer the constructor returned, and a local time with a month
    from 1 to 12, a day from 1 to 31 and an hour from 0 to 23, the transaction
    probability is computed without an error, and it is not negative when the
    class's yearly count and motivation factor are not. *)
Theorem constructed_transaction_prob (self0 self : self_t) (g : generator)
  (mdl : model) (dt : datetime) :
  lawful_generator R ->
  fst (run (UniMausCustomer.__init__ self0) g) = Returns self ->
  UniMausCustomer.get_local_datetime self mdl = Returns dt ->
  (1 <= month dt <= 12)%Z -> (1 <= day dt <= 31)%Z -> (0 <= hour dt <= 23)%Z ->
  exists p,
    UniMausCustomer.get_curr_transaction_prob self mdl = Returns p /\
    (0 <= Params.trans_per_year (params self0) (fraudster self0) ->
     0 <= Params.transaction_motivation (params self0) (fraudster self0) ->
     0 <= p).
Proof.
  intros HR Hrun Hdt Hmo Hda Hho.
  pose proof (ensures_run _ _ _ _ HR (init_ensures self0) Hrun) as Hi.
  destruct Hi as ((Cmo & Cmd & Cwd & Cho) & Havg & _).
  destruct Cmo as (_ & Lmo & Nmo & _). destruct Cmd as (_ & Lmd & Nmd & _).
  destruct Cwd as (_ & Lwd & Nwd & _). destruct Cho as (_ & Lho & Nho & _).
  eexists. split.
  - apply (get_curr_transaction_prob_in_range self mdl dt Hdt).
    + rewrite Lmo. lia.
    + rewrite Lho. lia.
    + rewrite Lmd. lia.
    + rewrite Lwd. pose proof (weekday_range dt). lia.
  - intros Hb Hmot.
    repeat apply Qmult_le_0_compat; try (apply nonneg_entry; assumption);
      try lra; auto.
Qed.

(** The probability is not clamped: at [p >= 1] the base decision is true,
    and at [p <= 0] it is false, whatever the draw. *)
Theorem decide_making_transaction_extremes (self : self_t) (mdl : model)
  (g : generator) (p : Q) :
  lawful_generator R ->
  UniMausCustomer.get_curr_transaction_prob self mdl = Returns p ->
  (1 <= p ->
   fst (run (UniMausCustomer.decide_making_transaction self mdl) g) = Returns true) /\
  (p <= 0 ->
   fst (run (UniMausCustomer.decide_making_transaction self mdl) g) = Returns false).
Proof.
  intros HR Hp.
  assert (Hu : 0 <= fst (sample (Uniform 0 1) g) /\ fst (sample (Uniform 0 1) g) < 1)
    by (apply (HR (Uniform 0 1) g); reflexivity).
  destruct (run_decide_making_transaction self mdl g p Hp) as [-> _]. cbn [fst].
  split; intro H; f_equal.
  - apply Qltb_lt. lra.
  - apply Qltb_ge. lra.
Qed.

(** The transaction probability fails only with the error of the local-time
    resolver or with [IndexError] (a curve without the entry asked for). *)
Theorem get_curr_transaction_prob_raises (self : self_t) (mdl : model) :
  (forall e, UniMausCustomer.get_local_datetime self mdl = Raises e ->
             UniMausCustomer.get_curr_transaction_prob self mdl = Raises e) /\
  (forall e, UniMausCustomer.get_curr_transaction_prob self mdl = Raises e ->
             UniMausCustomer.get_local_datetime self mdl = Raises e \/ e = IndexError).
Proof.
  unfold UniMausCustomer.get_curr_transaction_prob. split.
  - intros e ->. reflexivity.
  - intros e.
    destruct (UniMausCustomer.get_local_datetime self mdl) as [dt | e0].
    + destruct (getitem (trans_prob_month self) _) as [m | e1] eqn:E1;
        [| intro H; injection H as <-; right; exact (getitem_raises _ _ _ E1)].
      destruct (getitem (trans_prob_hour self) _) as [h | e2] eqn:E2;
        [| intro H; injection H as <-; right; exact (getitem_raises _ _ _ E2)].
      destruct (getitem (trans_prob_monthday self) _) as [d | e3] eqn:E3;
        [| intro H; injection H as <-; right; exact (getitem_raises _ _ _ E3)].
      destruct (getitem (trans_prob_weekday self) _) as [w | e4] eqn:E4;
        [| intro H; injection H as <-; right; exact (getitem_raises _ _ _ E4)].
      intro H. discriminate H.
    + intro H. left. injection H as <-. reflexivity.
Qed.

(** When the transaction probability cannot be computed, the base and the
    genuine decision raise the same error without a draw: the generator is
    left as it was. *)
Theorem decide_making_transaction_raises (self : self_t) (mdl : model)
  (g : generator) (e : exn) :
  UniMausCustomer.get_curr_transaction_prob self mdl = Raises e ->
  run (UniMausCustomer.decide_making_transaction self mdl) g = (Raises e, g) /\
  requests (UniMausCustomer.decide_making_transaction self mdl) g = [] /\
  run (UniMausGenuineCustomer.decide_making_transaction self mdl) g = (Raises e, g) /\
  requests (UniMausGenuineCustomer.decide_making_transaction self mdl) g = [].
Proof.
  intro He.
  assert (Hbase : run (UniMausCustomer.decide_making_transaction self mdl) g = (Raises e, g)
                  /\ requests (UniMausCustomer.decide_making_transaction self mdl) g = []).
  { unfold UniMausCustomer.decide_making_transaction.
    rewrite run_bind, requests_bind, run_lift, requests_lift, He. split; reflexivity. }
  destruct Hbase as [Hrun Hreq].
  split; [exact Hrun |]. split; [exact Hreq |].
  unfold UniMausGenuineCustomer.decide_making_transaction.
  rewrite run_bind, requests_bind, Hrun, Hreq. split; reflexivity.
Qed.

(** The genuine decision either leaves the customer as it was or sets
    [stay] to false, and it does the latter only for a corrupted card and
    only together with the answer false.  An answer true means that the base
    decision was true. *)
Theorem genuine_decide_outcomes (self self' : self_t) (mdl : model)
  (g : generator) (b : bool) :
  fst (run (UniMausGenuineCustomer.decide_making_transaction self mdl) g)
  = Returns (b, self') ->
  (self' = self \/
   (b = false /\ self' = set_stay false self /\ card_corrupted self = true)) /\
  (b = true -> self' = self) /\
  (card_corrupted self = false -> self' = self) /\
  (b = true ->
   fst (run (UniMausCustomer.decide_making_transaction self mdl) g) = Returns true).
Proof.
  destruct (run (UniMausGenuineCustomer.decide_making_transaction self mdl) g)
    as [r g'] eqn:E.
  cbn [fst]. intros ->.
  unfold UniMausGenuineCustomer.decide_making_transaction in E.
  apply run_bind_returns in E as (do_trans & g1 & Hbase & E).
  apply run_bind_returns in E as (u & g2 & _ & E).
  rewrite Hbase. cbn [fst].
  destruct do_trans, (card_corrupted self) eqn:Ec, (Qltb u _);
    cbn [andb run] in E; injection E as <- <- _;
    repeat split; auto; try discriminate.
Qed.

(** With [stay_after_fraud >= 1] the genuine decision is the base decision
    and the customer is left as it was, corrupted card or not. *)
Theorem genuine_decide_loyal (self : self_t) (mdl : model) (g g1 : generator)
  (do_trans : bool) :
  lawful_generator R ->
  1 <= Params.stay_after_fraud (params self) ->
  run (UniMausCustomer.decide_making_transaction self mdl) g = (Returns do_trans, g1) ->
  fst (run (UniMausGenuineCustomer.decide_making_transaction self mdl) g)
  = Returns (do_trans, self).
Proof.
  intros HR Hsaf Hbase.
  assert (Hu : 0 <= fst (sample (Uniform 0 1) g1) /\ fst (sample (Uniform 0 1) g1) < 1)
    by (apply (HR (Uniform 0 1) g1); reflexivity).
  unfold UniMausGenuineCustomer.decide_making_transaction.
  rewrite run_bind, Hbase, run_bind, run_uniform.
  replace (Qltb (fst (sample (Uniform 0 1) g1)) (1 - Params.stay_after_fraud (params self)))
    with false by (symmetry; apply Qltb_ge; lra).
  rewrite andb_false_r. reflexivity.
Qed.

(** A customer the genuine constructor returned has an uncorrupted card:
    its decision is the base decision, and it leaves the customer as it was. *)
Theorem genuine_init_decides_as_base (self0 self self' : self_t) (g h : generator)
  (mdl : model) (b : bool) :
  fst (run (UniMausGenuineCustomer.__init__ self0) g) = Returns self ->
  fst (run (UniMausGenuineCustomer.decide_making_transaction self mdl) h)
  = Returns (b, self') ->
  card_corrupted self = false /\ self' = self /\
  fst (run (UniMausCustomer.decide_making_transaction self mdl) h) = Returns b.
Proof.
  intros Hinit Hdec.
  assert (Hc : card_corrupted self = false).
  { destruct (run (UniMausGenuineCustomer.__init__ self0) g) as [r g'] eqn:E.
    cbn [fst] in Hinit. subst r. unfold UniMausGenuineCustomer.__init__ in E.
    apply run_bind_returns in E as (base & g1 & _ & E).
    cbn [run] in E. injection E as <- _. reflexivity. }
  split; [exact Hc |].
  destruct (run (UniMausGenuineCustomer.decide_making_transaction self mdl) h)
    as [r h'] eqn:E.
  cbn [fst] in Hdec. subst r.
  unfold UniMausGenuineCustomer.decide_making_transaction in E.
  apply run_bind_returns in E as (do_trans & h1 & Hbase & E).
  apply run_bind_returns in E as (u & h2 & _ & E).
  rewrite Hc, andb_false_r in E. cbn [andb run] in E. injection E as <- <- _.
  rewrite Hbase. split; reflexivity.
Qed.

End DecisionProperties.

(** ** Tables and weighted choices *)

Lemma loc_returns {V : Type} (frame : list (string * V)) (key : string) (v : V) :
  loc frame key = Returns v -> In (key, v) frame.
Proof.
  induction frame as [| [k v'] rest IH]; cbn [loc]; intro H.
  - discriminate H.
  - destruct (String.eqb k key) eqn:E.
    + apply String.eqb_eq in E. injection H as <-. subst k. left. reflexivity.
    + right. apply IH. exact H.
Qed.



Section WeightedChoice.
Context {R : RandomState}.

Lemma requests_try_except {A : Type} (m : rand A) (e : exn) (h : rand A) (g : generator) :
  requests (try_except m e h) g =
  requests m g ++
  match run m g with
  | (Returns _, _) => []
  | (Raises e', g') => if exn_eqb e e' then requests h g' else []
  end.
Proof.
  revert g. induction m as [a | e' | d k IH]; intro g; cbn [try_except run requests app].
  - reflexivity.
  - destruct (exn_eqb e e'); reflexivity.
  - f_equal. apply IH.
Qed.

(** A weighted choice over the rows of a table returns the key of a row of
    positive weight. *)
Lemma run_choice_weighted {T K : Type} (rows : list T) (key : T -> K) (weight : T -> Q)
  (g g' : generator) (x : K) :
  lawful_generator R ->
  run (choice (map key rows) (Some (map weight rows))) g = (Returns x, g') ->
  (exists t, In t rows /\ key t = x /\ 0 < weight t) /\
  requests (choice (map key rows) (Some (map weight rows))) g
  = [Choice (length rows) (Some (map weight rows))].
Proof.
  intros HR H. destruct rows as [| t0 rest]; [discriminate H |].
  unfold choice in H |- *. cbn [map] in H |- *.
  change (key t0 :: map key rest) with (map key (t0 :: rest)) in H |- *.
  change (weight t0 :: map weight rest) with (map weight (t0 :: rest)) in H |- *.
  rewrite length_map in H |- *.
  destruct (probabilities (length (t0 :: rest)) (map weight (t0 :: rest))) eqn:Hp;
    [| discriminate H].
  split; [| reflexivity].
  set (d := Choice (length (t0 :: rest)) (Some (map weight (t0 :: rest)))) in *.
  change (run (Sample d (fun i => Ret (nth i (map key (t0 :: rest)) (key t0)))) g)
    with (Returns (nth (fst (sample d g)) (map key (t0 :: rest)) (key t0)),
          snd (sample d g)) in H.
  assert (Hx : nth (fst (sample d g)) (map key (t0 :: rest)) (key t0) = x)
    by (injection H as H _; exact H).
  clear H.
  destruct (HR d g) as [Hlt Hpos]; [cbn; lia |].
  specialize (Hpos Hp).
  exists (nth (fst (sample d g)) (t0 :: rest) t0). split; [| split].
  - apply nth_In. exact Hlt.
  - rewrite <- Hx. symmetry. apply map_nth.
  - rewrite (nth_map_in weight (t0 :: rest) _ t0) in Hpos by exact Hlt. exact Hpos.
Qed.


End WeightedChoice.

(** ** Retention, purchase, locale and card *)

Section AgentProperties.
Context {W : World} {R : RandomState}.

(** [decide_staying] makes one uniform draw [u]; it sets [stay] to false
    when [u < 1 - stay_prob] and otherwise leaves the customer as it was.
    So a class with [stay_prob >= 1] never leaves, a class with
    [stay_prob <= 0] always does, no other attribute changes, and a false
    [stay] stays false. *)
Theorem decide_staying_threshold (self : self_t) (g : generator) :
  lawful_generator R ->
  let u := fst (sample (Uniform 0 1) g) in
  let p := Params.stay_prob (params self) (fraudster self) in
  exists self',
    run (UniMausCustomer.decide_staying self) g = (Returns self', snd (sample (Uniform 0 1) g)) /\
    requests (UniMausCustomer.decide_staying self) g = [Uniform 0 1] /\
    (u < 1 - p -> self' = set_stay false self) /\
    (1 - p <= u -> self' = self) /\
    (1 <= p -> self' = self) /\
    (p <= 0 -> self' = set_stay false self) /\
    set_stay true self' = set_stay true self /\
    (stay self = false -> stay self' = false).
Proof.
  intros HR u p.
  assert (Hu : 0 <= u /\ u < 1) by (apply (HR (Uniform 0 1) g); reflexivity).
  unfold UniMausCustomer.decide_staying. cbn [uniform bind run requests].
  fold u. fold p.
  destruct (Qltb u (1 - p)) eqn:E; eexists; (split; [reflexivity |]);
    (split; [reflexivity |]).
  - apply Qltb_lt in E. repeat split; auto; intros; exfalso; lra.
  - apply Qltb_ge in E. repeat split; auto; intros; exfalso; lra.
Qed.


(** A merchant that [pick_curr_merchant] returns is in the registry, and its
    id has a positive probability in the row of the customer's currency: a
    merchant whose probability for that currency is zero is never picked. *)
Theorem pick_curr_merchant_support (self : self_t) (mdl : model) (g : generator)
  (m : merchant) :
  lawful_generator R ->
  fst (run (UniMausCustomer.pick_curr_merchant self mdl) g) = Returns m ->
  In m (merchants mdl) /\
  exists row q,
    In (currency self, row)
      (Params.merchant_per_currency (params self) (fraudster self)) /\
    In (merchant_unique_id m, q) row /\ 0 < q.
Proof.
  intros HR Hrun.
  destruct (run (UniMausCustomer.pick_curr_merchant self mdl) g) as [r g'] eqn:E.
  cbn [fst] in Hrun. subst r.
  split; [exact (pick_curr_merchant_returns _ _ _ _ _ E) |].
  unfold UniMausCustomer.pick_curr_merchant in E.
  apply run_bind_returns in E as (row & g0 & Hrow & E).
  rewrite run_lift in Hrow. injection Hrow as Hrow _.
  apply run_bind_returns in E as (merchant_ID & g1 & Hid & E).
  destruct (run_choice_weighted row fst snd _ _ _ HR Hid) as [[[id q] [Hin [Hkey Hq]]] _].
  cbn [fst snd] in Hkey, Hq. subst id.
  pose proof (registry_lookup mdl merchant_ID) as Hreg.
  destruct (filter _ (merchants mdl)) as [| m' rest]; [discriminate E |].
  cbn [run] in E. injection E as <- _. destruct Hreg as [_ Hm].
  exists row, q. split; [exact (loc_returns _ _ _ Hrow) |].
  split; [rewrite Hm; exact Hin | exact Hq].
Qed.

(** [perform_transaction] asks the merchant for an amount only after a
    merchant was picked: an error of [pick_curr_merchant] is raised as it is,
    with no further request.  Otherwise the picked merchant computes the
    amount for the customer whose [curr_merchant] it already is, and an error
    it raises is raised as it is. *)
Theorem perform_transaction_steps (self : self_t) (mdl : model) (g : generator) :
  (forall e g', run (UniMausCustomer.pick_curr_merchant self mdl) g = (Raises e, g') ->
     run (UniMausCustomer.perform_transaction self mdl) g = (Raises e, g') /\
     requests (UniMausCustomer.perform_transaction self mdl) g
     = requests (UniMausCustomer.pick_curr_merchant self mdl) g) /\
  (forall m g1, run (UniMausCustomer.pick_curr_merchant self mdl) g = (Returns m, g1) ->
     let buyer := set_curr_merchant (Some m) self in
     requests (UniMausCustomer.perform_transaction self mdl) g
     = requests (UniMausCustomer.pick_curr_merchant self mdl) g
       ++ requests (get_amount m buyer) g1 /\
     (forall e g2, run (get_amount m buyer) g1 = (Raises e, g2) ->
        run (UniMausCustomer.perform_transaction self mdl) g = (Raises e, g2)) /\
     (forall amount buyer' g2,
        run (get_amount m buyer) g1 = (Returns (amount, buyer'), g2) ->
        run (UniMausCustomer.perform_transaction self mdl) g
        = (Returns (set_curr_amount (Some amount) buyer'), g2))).
Proof.
  unfold UniMausCustomer.perform_transaction. split.
  - intros e g' H. rewrite run_bind, requests_bind, H.
    split; [reflexivity | apply app_nil_r].
  - intros m g1 H. set (buyer := set_curr_merchant (Some m) self).
    rewrite run_bind, requests_bind, H.
    change (UniMausCustomer.pick_curr_amount (set_curr_merchant (Some m) self))
      with (get_amount m buyer).
    rewrite run_bind, requests_bind.
    split; [| split].
    + f_equal. destruct (run (get_amount m buyer) g1) as [[[amount c'] | e] g2];
        cbn [requests]; apply app_nil_r.
    + intros e g2 ->. reflexivity.
    + intros amount buyer' g2 ->. reflexivity.
Qed.


(** [initialise_currency] returns a currency that the class's currency table
    pairs with the customer's country at a positive probability; for a
    fraudster that is a currency the card search accepts.  When the table has
    no row for the country it raises [KeyError] before any draw. *)
Theorem initialise_currency_support (self : self_t) (g : generator) :
  lawful_generator R ->
  let table := Params.currency_per_country (params self) (fraudster self) in
  (forall cu, fst (run (UniMausCustomer.initialise_currency self) g) = Returns cu ->
     (exists p, In ((country self, cu), p) table /\ 0 < p) /\
     (fraudster self = true ->
      UniMausFraudulentCustomer.label_in cu
        (UniMausFraudulentCustomer.fraudster_currencies (params self)) = true)) /\
  ((forall cu p, ~ In ((country self, cu), p) table) ->
   run (UniMausCustomer.initialise_currency self) g = (Raises KeyError, g) /\
   requests (UniMausCustomer.initialise_currency self) g = []).
Proof.
  intros HR table. unfold UniMausCustomer.initialise_currency. fold table.
  set (rows := filter (fun row => String.eqb (fst (fst row)) (country self)) table).
  assert (Hrows : forall row, In row rows ->
            In row table /\ fst (fst row) = country self).
  { intros row Hin. apply filter_In in Hin as [Hin He].
    apply String.eqb_eq in He. split; assumption. }
  split.
  - intros cu Hrun.
    destruct rows as [| r0 rest] eqn:Er; [discriminate Hrun |].
    rewrite <- Er in Hrun.
    destruct (run (choice (map (fun row => snd (fst row)) rows) (Some (map snd rows))) g)
      as [r g'] eqn:E.
    cbn [fst] in Hrun. subst r.
    destruct (run_choice_weighted rows (fun row => snd (fst row)) snd _ _ _ HR E)
      as [[[[co cu'] p] [Hin [Hkey Hpos]]] _].
    cbn [fst snd] in Hkey, Hpos. subst cu'.
    rewrite Er in Hin. destruct (Hrows _ Hin) as [Hin' Hco]. cbn [fst] in Hco. subst co.
    split; [exists p; split; assumption |].
    intro Hf. unfold UniMausFraudulentCustomer.label_in,
      UniMausFraudulentCustomer.fraudster_currencies.
    apply existsb_exists. exists cu. split; [| apply String.eqb_refl].
    apply nodup_In. apply in_map_iff. exists ((country self, cu), p).
    split; [reflexivity |]. unfold table in Hin'. rewrite Hf in Hin'. exact Hin'.
  - intro Hnone. destruct rows as [| [[co cu] p] rest] eqn:Er; [split; reflexivity |].
    exfalso. destruct (Hrows ((co, cu), p)) as [Hin Hco]; [left; reflexivity |].
    cbn [fst] in Hco. subst co. exact (Hnone cu p Hin).
Qed.

End AgentProperties.

Section CardProperties.
Context {W : World} {R : RandomState}.

(** The two ways [initialise_card_id] of the fraudster can end. *)
Definition falls_back (self : self_t) (mdl : model)
  (outcome : result (Z * self_t * model)) : Prop :=
  outcome = Returns (fst (get_next_card_id mdl), self, snd (get_next_card_id mdl)).

Definition adopts (self : self_t) (mdl : model)
  (outcome : result (Z * self_t * model)) : Prop :=
  exists victim,
    In victim (UniMausFraudulentCustomer.targets self mdl) /\
    outcome = Returns (card_id victim,
                       set_currency (currency victim) (set_country (country victim) self),
                       mdl).

Lemma fraud_searches (self : self_t) (mdl : model) (g : generator) :
  Qltb (fst (sample (Uniform 0 1) g)) (Params.fraud_cards_in_genuine (params self)) = true ->
  UniMausFraudulentCustomer.targets self mdl <> [] ->
  adopts self mdl (fst (run (UniMausFraudulentCustomer.initialise_card_id self mdl) g)) /\
  requests (UniMausFraudulentCustomer.initialise_card_id self mdl) g
  = [Uniform 0 1; Choice (length (UniMausFraudulentCustomer.targets self mdl)) None].
Proof.
  intros Hu Hne. unfold adopts, UniMausFraudulentCustomer.initialise_card_id.
  rewrite run_bind, requests_bind, run_uniform. cbn [uniform requests app].
  rewrite Hu, run_try_except, requests_try_except, run_bind, requests_bind.
  destruct (UniMausFraudulentCustomer.targets self mdl) as [| c0 rest];
    [contradiction |].
  rewrite (run_choice_accepted c0 rest None _ I). split; [| reflexivity].
  exists (nth (fst (sample (Choice (length (c0 :: rest)) None)
                      (snd (sample (Uniform 0 1) g)))) (c0 :: rest) c0).
  split; [| reflexivity].
  destruct (nth_in_or_default
              (fst (sample (Choice (length (c0 :: rest)) None)
                      (snd (sample (Uniform 0 1) g)))) (c0 :: rest) c0)
    as [H | ->]; [exact H | left; reflexivity].
Qed.

Lemma fraud_gives_up (self : self_t) (mdl : model) (g : generator) :
  Qltb (fst (sample (Uniform 0 1) g)) (Params.fraud_cards_in_genuine (params self)) = false
  \/ UniMausFraudulentCustomer.targets self mdl = [] ->
  falls_back self mdl (fst (run (UniMausFraudulentCustomer.initialise_card_id self mdl) g)) /\
  requests (UniMausFraudulentCustomer.initialise_card_id self mdl) g = [Uniform 0 1].
Proof.
  intro H. unfold falls_back, UniMausFraudulentCustomer.initialise_card_id.
  rewrite run_bind, requests_bind, run_uniform. cbn [uniform requests app].
  assert (Hbase : forall h, requests (UniMausCustomer.initialise_card_id self mdl) h = []).
  { intro h. unfold UniMausCustomer.initialise_card_id.
    destruct (get_next_card_id mdl). reflexivity. }
  destruct (Qltb _ _) eqn:E.
  - destruct H as [H | H]; [discriminate H |].
    rewrite run_try_except, requests_try_except, run_bind, requests_bind, H.
    cbn [choice run requests app exn_eqb].
    rewrite run_base_initialise_card_id, Hbase. split; reflexivity.
  - rewrite run_base_initialise_card_id, Hbase. split; reflexivity.
Qed.

(** The fraudster's [initialise_card_id] never raises, whatever the customers
    of the model and the answers of the generator: it returns either the
    card of [get_next_card_id] with the fraudster as it was, or the card,
    country and currency of a target with the model as it was (no card id is
    handed out then).  It makes the uniform draw and at most one choice, a
    choice without weights over the targets. *)
Theorem fraud_initialise_card_id_total (self : self_t) (mdl : model) (g : generator) :
  let outcome := fst (run (UniMausFraudulentCustomer.initialise_card_id self mdl) g) in
  (falls_back self mdl outcome /\
   requests (UniMausFraudulentCustomer.initialise_card_id self mdl) g = [Uniform 0 1]) \/
  (adopts self mdl outcome /\
   requests (UniMausFraudulentCustomer.initialise_card_id self mdl) g
   = [Uniform 0 1; Choice (length (UniMausFraudulentCustomer.targets self mdl)) None]).
Proof.
  cbv zeta.
  destruct (Qltb (fst (sample (Uniform 0 1) g))
              (Params.fraud_cards_in_genuine (params self))) eqn:E.
  - destruct (UniMausFraudulentCustomer.targets self mdl) as [| c0 rest] eqn:Et.
    + left. apply fraud_gives_up. right. exact Et.
    + right. rewrite <- Et. apply fraud_searches; [exact E |].
      rewrite Et. discriminate.
  - left. apply fraud_gives_up. left. exact E.
Qed.

(** The threshold [fraud_cards_in_genuine]: a first draw at or above it
    skips the search, so the fraudster gets the card of [get_next_card_id]
    and no choice is made; at a threshold of zero or less this is every
    call, and at a threshold of one or more every call with a target adopts
    one. *)
Theorem fraud_initialise_card_id_threshold (self : self_t) (mdl : model) (g : generator) :
  lawful_generator R ->
  let u := fst (sample (Uniform 0 1) g) in
  let threshold := Params.fraud_cards_in_genuine (params self) in
  let outcome := fst (run (UniMausFraudulentCustomer.initialise_card_id self mdl) g) in
  (threshold <= u ->
   falls_back self mdl outcome /\
   requests (UniMausFraudulentCustomer.initialise_card_id self mdl) g = [Uniform 0 1]) /\
  (threshold <= 0 -> falls_back self mdl outcome) /\
  (1 <= threshold -> UniMausFraudulentCustomer.targets self mdl <> [] ->
   adopts self mdl outcome).
Proof.
  intros HR u threshold outcome.
  assert (Hu : 0 <= u /\ u < 1) by (apply (HR (Uniform 0 1) g); reflexivity).
  assert (Hskip : threshold <= u ->
            falls_back self mdl outcome /\
            requests (UniMausFraudulentCustomer.initialise_card_id self mdl) g
            = [Uniform 0 1]).
  { intro Hge. apply fraud_gives_up. left. apply Qltb_ge. exact Hge. }
  split; [exact Hskip |]. split.
  - intro Hz. apply Hskip. lra.
  - intros Hone Hne. apply fraud_searches; [| exact Hne].
    apply Qltb_lt. fold u. fold threshold. lra.
Qed.

End CardProperties.

Section TargetProperties.
Context {W : World}.

(** Who can be a fraud target: a customer of the model whose country has a
    row with a fraud fraction other than zero, whose currency occurs in the
    fraud currency table, and whose id is the id of a customer of the model
    (itself or another) with at least one transaction.  The tables are the
    searching fraudster's. *)
Theorem targets_characterised (self c : self_t) (mdl : model) :
  In c (UniMausFraudulentCustomer.targets self mdl) <->
  In c (customers mdl) /\
  (exists fractions,
      In (country c, fractions) (Params.country_frac (params self)) /\
      ~ snd fractions == 0) /\
  (exists co p,
      In ((co, currency c), p) (Params.currency_per_country (params self) true)) /\
  (exists c', In c' (customers mdl) /\ (0 < num_transactions c')%Z /\
              unique_id c' = unique_id c).
Proof.
  unfold UniMausFraudulentCustomer.targets. rewrite filter_In, !andb_true_iff.
  rewrite id_in_active.
  assert (Hco : UniMausFraudulentCustomer.label_in (country c)
                  (UniMausFraudulentCustomer.fraudster_countries (params self)) = true <->
                exists fractions,
                  In (country c, fractions) (Params.country_frac (params self)) /\
                  ~ snd fractions == 0).
  { unfold UniMausFraudulentCustomer.label_in, UniMausFraudulentCustomer.fraudster_countries.
    rewrite existsb_exists. split.
    - intros [x [Hin Heq]]. apply String.eqb_eq in Heq. subst x.
      apply in_map_iff in Hin as [[co fr] [Hk Hin]]. cbn [fst] in Hk. subst co.
      apply filter_In in Hin as [Hin Hnz]. cbn [snd] in Hnz.
      exists fr. split; [exact Hin |]. intro Hz. apply Qeq_bool_iff in Hz.
      rewrite Hz in Hnz. discriminate Hnz.
    - intros [fr [Hin Hnz]]. exists (country c). split; [| apply String.eqb_refl].
      apply in_map_iff. exists (country c, fr). split; [reflexivity |].
      apply filter_In. split; [exact Hin |]. cbn [snd].
      destruct (Qeq_bool (snd fr) 0) eqn:E; [| reflexivity].
      exfalso. apply Hnz. apply Qeq_bool_iff. exact E. }
  assert (Hcu : UniMausFraudulentCustomer.label_in (currency c)
                  (UniMausFraudulentCustomer.fraudster_currencies (params self)) = true <->
                exists co p,
                  In ((co, currency c), p)
                    (Params.currency_per_country (params self) true)).
  { unfold UniMausFraudulentCustomer.label_in, UniMausFraudulentCustomer.fraudster_currencies.
    rewrite existsb_exists. split.
    - intros [x [Hin Heq]]. apply String.eqb_eq in Heq. subst x.
      apply nodup_In in Hin. apply in_map_iff in Hin as [[[co cu] p] [Hk Hin]].
      cbn [fst snd] in Hk. subst cu. exists co, p. exact Hin.
    - intros [co [p Hin]]. exists (currency c). split; [| apply String.eqb_refl].
      apply nodup_In. apply in_map_iff. exists ((co, currency c), p).
      split; [reflexivity | exact Hin]. }
  rewrite Hco, Hcu. tauto.
Qed.

End TargetProperties.

(** ** Executions of the further properties *)

(** The tables of [Fixture] with customers that never leave after a fraud,
    and a defrauded customer living under them. *)
Definition loyal_tables : Params.t := {|
  Params.noise_level := Params.noise_level Fixture.tables;
  Params.trans_per_year := Params.trans_per_year Fixture.tables;
  Params.transaction_motivation := Params.transaction_motivation Fixture.tables;
  Params.frac_month := Params.frac_month Fixture.tables;
  Params.frac_monthday := Params.frac_monthday Fixture.tables;
  Params.frac_weekday := Params.frac_weekday Fixture.tables;
  Params.frac_hour := Params.frac_hour Fixture.tables;
  Params.merchant_per_currency := Params.merchant_per_currency Fixture.tables;
  Params.country_frac := Params.country_frac Fixture.tables;
  Params.currency_per_country := Params.currency_per_country Fixture.tables;
  Params.stay_prob := Params.stay_prob Fixture.tables;
  Params.stay_after_fraud := 1;
  Params.fraud_cards_in_genuine := Params.fraud_cards_in_genuine Fixture.tables
|}.

Definition loyal_alice : customer (Z * Q) :=
  set_card_corrupted true (Fixture.settled (Fixture.fresh 6 loyal_tables false 3)).

(** A customer whose transaction probability exceeds one. *)
Definition eager_alice : customer (Z * Q) :=
  set_avg_trans_per_hour 100 Fixture.alice.

Section FurtherExecutions.
Import Fixture.


(** The attributes the constructor leaves alone, for [bob]. *)
Lemma init_frame_witness :
  exists self,
    fst (run (R := Replay.random_state) (UniMausCustomer.__init__ (W := world) bob) [-1])
    = Returns self /\
    noise_level self = Params.noise_level (params bob) /\
    unique_id self = unique_id bob /\
    params self = params bob /\
    fraudster self = fraudster bob /\
    country self = country bob /\
    currency self = currency bob /\
    card_id self = card_id bob /\
    stay self = stay bob /\
    num_transactions self = num_transactions bob /\
    curr_merchant self = curr_merchant bob /\
    curr_amount self = curr_amount bob /\
    card_corrupted self = card_corrupted bob.
Proof.
  let r := eval vm_compute in
        (fst (run (R := Replay.random_state) (UniMausCustomer.__init__ (W := world) bob) [-1])) in
  match r with Returns ?c => exists c end.
  split; [vm_compute; reflexivity |].
  apply (init_frame (W := world) (R := Replay.random_state) bob _ [-1]).
  vm_compute. reflexivity.
Defined.

(** The probability of the constructed [bob] on 1 January 2018. *)
Lemma constructed_transaction_prob_witness :
  exists self,
    fst (run (R := Replay.random_state) (UniMausCustomer.__init__ (W := world) bob) [-1])
    = Returns self /\
    exists p,
      UniMausCustomer.get_curr_transaction_prob (W := world) self (town [alice]) = Returns p /\
      (0 <= Params.trans_per_year (params bob) (fraudster bob) ->
       0 <= Params.transaction_motivation (params bob) (fraudster bob) ->
       0 <= p).
Proof.
  let r := eval vm_compute in
        (fst (run (R := Replay.random_state) (UniMausCustomer.__init__ (W := world) bob) [-1])) in
  match r with Returns ?c => exists c end.
  split; [vm_compute; reflexivity |].
  apply (constructed_transaction_prob (W := world) (R := Replay.random_state)
           bob _ [-1] (town [alice]) new_year Replay_lawful);
    first [ vm_compute; reflexivity
          | split; vm_compute; first [reflexivity | discriminate] ].
Defined.

(** A probability above one decides for a transaction at the draw 0.999. *)
Lemma decide_making_transaction_extremes_witness :
  exists p,
    UniMausCustomer.get_curr_transaction_prob (W := world) eager_alice (town [alice])
    = Returns p /\
    1 <= p /\
    fst (run (R := Replay.random_state)
           (UniMausCustomer.decide_making_transaction (W := world) eager_alice (town [alice]))
           [999 # 1000]) = Returns true.
Proof.
  let r := eval vm_compute in
        (UniMausCustomer.get_curr_transaction_prob (W := world) eager_alice (town [alice])) in
  match r with Returns ?p => exists p end.
  match goal with
  | |- ?A /\ ?B /\ _ =>
      assert (Hp : A) by (vm_compute; reflexivity);
      assert (Hone : B) by (vm_compute; discriminate)
  end.
  split; [exact Hp |]. split; [exact Hone |].
  exact (proj1 (decide_making_transaction_extremes (W := world) (R := Replay.random_state)
                  eager_alice (town [alice]) [999 # 1000] _ Replay_lawful Hp) Hone).
Defined.

(** [eve] has no curves yet: the decisions raise [IndexError] and draw nothing. *)
Lemma decide_making_transaction_raises_witness :
  UniMausCustomer.get_curr_transaction_prob (W := world) eve (town [alice])
  = Raises IndexError /\
  run (R := Replay.random_state)
    (UniMausCustomer.decide_making_transaction (W := world) eve (town [alice])) [1 # 4]
  = (Raises IndexError, [1 # 4]) /\
  requests (R := Replay.random_state)
    (UniMausCustomer.decide_making_transaction (W := world) eve (town [alice])) [1 # 4] = [] /\
  run (R := Replay.random_state)
    (UniMausGenuineCustomer.decide_making_transaction (W := world) eve (town [alice])) [1 # 4]
  = (Raises IndexError, [1 # 4]) /\
  requests (R := Replay.random_state)
    (UniMausGenuineCustomer.decide_making_transaction (W := world) eve (town [alice])) [1 # 4]
  = [].
Proof.
  assert (He : UniMausCustomer.get_curr_transaction_prob (W := world) eve (town [alice])
               = Raises IndexError) by (vm_compute; reflexivity).
  split; [exact He |].
  exact (decide_making_transaction_raises (W := world) (R := Replay.random_state)
           eve (town [alice]) [1 # 4] IndexError He).
Defined.

(** The defrauded [alice] leaves together with the answer false. *)
Lemma genuine_decide_outcomes_witness :
  fst (run (R := Replay.random_state)
         (UniMausGenuineCustomer.decide_making_transaction (W := world)
            alice_defrauded (town [alice])) [1 # 4; 1 # 2])
  = Returns (false, set_stay false alice_defrauded) /\
  (set_stay false alice_defrauded = alice_defrauded \/
   (false = false /\ set_stay false alice_defrauded = set_stay false alice_defrauded /\
    card_corrupted alice_defrauded = true)) /\
  (false = true -> set_stay false alice_defrauded = alice_defrauded) /\
  (card_corrupted alice_defrauded = false ->
   set_stay false alice_defrauded = alice_defrauded) /\
  (false = true ->
   fst (run (R := Replay.random_state)
          (UniMausCustomer.decide_making_transaction (W := world)
             alice_defrauded (town [alice])) [1 # 4; 1 # 2]) = Returns true).
Proof.
  assert (H : fst (run (R := Replay.random_state)
                     (UniMausGenuineCustomer.decide_making_transaction (W := world)
                        alice_defrauded (town [alice])) [1 # 4; 1 # 2])
              = Returns (false, set_stay false alice_defrauded))
    by (vm_compute; reflexivity).
  split; [exact H |].
  exact (genuine_decide_outcomes (W := world) (R := Replay.random_state)
           alice_defrauded _ (town [alice]) [1 # 4; 1 # 2] false H).
Defined.

(** At [stay_after_fraud = 1] the defrauded customer keeps transacting. *)
Lemma genuine_decide_loyal_witness :
  1 <= Params.stay_after_fraud (params loyal_alice) /\
  run (R := Replay.random_state)
    (UniMausCustomer.decide_making_transaction (W := world) loyal_alice (town [alice]))
    [1 # 4; 0]
  = (Returns true, [0]) /\
  fst (run (R := Replay.random_state)
         (UniMausGenuineCustomer.decide_making_transaction (W := world)
            loyal_alice (town [alice])) [1 # 4; 0])
  = Returns (true, loyal_alice).
Proof.
  assert (Hs : 1 <= Params.stay_after_fraud (params loyal_alice))
    by (vm_compute; discriminate).
  assert (Hb : run (R := Replay.random_state)
                 (UniMausCustomer.decide_making_transaction (W := world)
                    loyal_alice (town [alice])) [1 # 4; 0]
               = (Returns true, [0])) by (vm_compute; reflexivity).
  split; [exact Hs |]. split; [exact Hb |].
  exact (genuine_decide_loyal (W := world) (R := Replay.random_state)
           loyal_alice (town [alice]) [1 # 4; 0] [0] true Replay_lawful Hs Hb).
Defined.

(** A freshly constructed genuine [bob] decides as the base class does. *)
Lemma genuine_init_decides_as_base_witness :
  exists self b,
    fst (run (R := Replay.random_state) (UniMausGenuineCustomer.__init__ (W := world) bob) [-1])
    = Returns self /\
    fst (run (R := Replay.random_state)
           (UniMausGenuineCustomer.decide_making_transaction (W := world) self (town [alice]))
           [1 # 1000; 0])
    = Returns (b, self) /\
    card_corrupted self = false /\ self = self /\
    fst (run (R := Replay.random_state)
           (UniMausCustomer.decide_making_transaction (W := world) self (town [alice]))
           [1 # 1000; 0])
    = Returns b.
Proof.
  let r := eval vm_compute in
        (fst (run (R := Replay.random_state)
                (UniMausGenuineCustomer.__init__ (W := world) bob) [-1])) in
  match r with Returns ?c => exists c end.
  eexists.
  match goal with
  | |- ?A /\ ?B /\ _ =>
      assert (Ha : A) by (vm_compute; reflexivity);
      assert (Hb : B) by (vm_compute; reflexivity)
  end.
  split; [exact Ha |]. split; [exact Hb |].
  exact (genuine_init_decides_as_base (W := world) (R := Replay.random_state)
           bob _ _ [-1] [1 # 1000; 0] (town [alice]) _ Ha Hb).
Defined.

(** [alice] at the draw 1/20, below [1 - stay_prob = 1/10]. *)
Lemma decide_staying_threshold_witness :
  let u := fst (sample (RandomState := Replay.random_state) (Uniform 0 1) [1 # 20]) in
  let p := Params.stay_prob (params alice) (fraudster alice) in
  exists self',
    run (R := Replay.random_state) (UniMausCustomer.decide_staying (W := world) alice) [1 # 20]
    = (Returns self',
       snd (sample (RandomState := Replay.random_state) (Uniform 0 1) [1 # 20])) /\
    requests (R := Replay.random_state) (UniMausCustomer.decide_staying (W := world) alice)
      [1 # 20] = [Uniform 0 1] /\
    (u < 1 - p -> self' = set_stay false alice) /\
    (1 - p <= u -> self' = alice) /\
    (1 <= p -> self' = alice) /\
    (p <= 0 -> self' = set_stay false alice) /\
    set_stay true self' = set_stay true alice /\
    (stay alice = false -> stay self' = false).
Proof.
  exact (decide_staying_threshold (W := world) (R := Replay.random_state)
           alice [1 # 20] Replay_lawful).
Defined.

(** Merchant 8 is picked for [alice]: its probability for EUR is one. *)
Lemma pick_curr_merchant_support_witness :
  fst (run (R := Replay.random_state)
         (UniMausCustomer.pick_curr_merchant (W := world) alice (town [alice])) [5])
  = Returns (8%Z, 10) /\
  In (8%Z, 10) (merchants (World := world) (town [alice])) /\
  exists row q,
    In (currency alice, row)
      (Params.merchant_per_currency (params alice) (fraudster alice)) /\
    In (merchant_unique_id (World := world) (8%Z, 10), q) row /\ 0 < q.
Proof.
  assert (H : fst (run (R := Replay.random_state)
                     (UniMausCustomer.pick_curr_merchant (W := world) alice (town [alice]))
                     [5]) = Returns (8%Z, 10)) by (vm_compute; reflexivity).
  split; [exact H |].
  exact (pick_curr_merchant_support (W := world) (R := Replay.random_state)
           alice (town [alice]) [5] (8%Z, 10) Replay_lawful H).
Defined.


(** The currency of [eve], drawn for the country DE. *)
Lemma initialise_currency_support_witness :
  let table := Params.currency_per_country (params eve) (fraudster eve) in
  (forall cu,
     fst (run (R := Replay.random_state) (UniMausCustomer.initialise_currency (W := world) eve)
            [1]) = Returns cu ->
     (exists p, In ((country eve, cu), p) table /\ 0 < p) /\
     (fraudster eve = true ->
      UniMausFraudulentCustomer.label_in cu
        (UniMausFraudulentCustomer.fraudster_currencies (params eve)) = true)) /\
  ((forall cu p, ~ In ((country eve, cu), p) table) ->
   run (R := Replay.random_state) (UniMausCustomer.initialise_currency (W := world) eve) [1]
   = (Raises KeyError, [1]) /\
   requests (R := Replay.random_state) (UniMausCustomer.initialise_currency (W := world) eve)
     [1] = []).
Proof.
  exact (initialise_currency_support (W := world) (R := Replay.random_state)
           eve [1] Replay_lawful).
Defined.

(** At the draw 3/4, above the threshold 1/2, [eve] does not search although [alice] is a target. *)
Lemma fraud_initialise_card_id_threshold_witness :
  let mdl := town [alice; bob] in
  let u := fst (sample (RandomState := Replay.random_state) (Uniform 0 1) [3 # 4]) in
  let outcome :=
    fst (run (R := Replay.random_state)
           (UniMausFraudulentCustomer.initialise_card_id (W := world) eve mdl) [3 # 4]) in
  Params.fraud_cards_in_genuine (params eve) <= u /\
  UniMausFraudulentCustomer.targets (W := world) eve mdl = [alice] /\
  falls_back (W := world) eve mdl outcome /\
  requests (R := Replay.random_state)
    (UniMausFraudulentCustomer.initialise_card_id (W := world) eve mdl) [3 # 4]
  = [Uniform 0 1].
Proof.
  cbv zeta.
  assert (Hu : Params.fraud_cards_in_genuine (params eve)
               <= fst (sample (RandomState := Replay.random_state) (Uniform 0 1) [3 # 4]))
    by (vm_compute; discriminate).
  split; [exact Hu |]. split; [vm_compute; reflexivity |].
  exact (proj1 (fraud_initialise_card_id_threshold (W := world) (R := Replay.random_state)
                  eve (town [alice; bob]) [3 # 4] Replay_lawful) Hu).
Defined.

End FurtherExecutions.

(** ** A card that gets corrupted *)

Section CorruptionProperties.
Context {W : World} {R : RandomState}.


End CorruptionProperties.

Section CorruptionExecutions.
Import Fixture.


End CorruptionExecutions.
